(** * A shallow embedding of the pytest test-filter pipeline

    The development follows [conftest.py] (the plugin file pytest loads) and
    its earlier sibling [Pipeline.py].  Both files define the same classes:
    [TestFilterPipeline], [DateFilterStage], [FixtureParameterGroups] and
    [FixtureParameterGroupingStage].  [DateFilterStage] and
    [FixtureParameterGroups] are textually identical in the two files and are
    embedded once; the pipeline and the grouping stage differ and are embedded
    per file, in the modules [Conftest] and [PipelinePy].

    Conventions of the embedding:
    - a [pytest.Item] is a mutable object, so tests are object identities
      ([item_id]) into a store ([heap]); lists of tests are lists of
      identities, and [add_marker] updates the store;
    - Python exceptions are the [Raise] results of an error monad;
    - what [pytest.mark] knows of the session (registered markers, strict
      markers, warnings as errors) is an explicit argument, [None] standing
      for use outside a session;
    - definitions named [spec_...] follow the specification, not the code,
      and serve to compare the two;
    - text is ASCII: [lower] folds the letters A-Z only;
    - [print] calls are not modelled. *)

From Stdlib Require Import ZArith String Ascii List Lia.
From Stdlib Require Import DecimalString.
From stdpp Require Import base option list gmap strings.

Local Open Scope string_scope.
Local Open Scope list_scope.
Local Open Scope Z_scope.

(** ** Python exceptions *)

Inductive exn : Type :=
  | AttributeError
  | IndexError
  | KeyError
  | TypeError
  | Failed                      (* raised by [pytest.fail] *)
  | PytestUnknownMarkWarning.   (* a warning turned into an error *)

Inductive result (A : Type) : Type :=
  | Ok (a : A)
  | Raise (e : exn).

Arguments Ok {A} a.
Arguments Raise {A} e.

Definition bind {A B : Type} (r : result A) (k : A -> result B) : result B :=
  match r with
  | Ok a => k a
  | Raise e => Raise e
  end.

Notation "x <- r ;; k" := (bind r (fun x => k))
  (at level 100, r at next level, right associativity).

(** A [for x in l: body] loop whose body may raise. *)
Fixpoint for_each {S A : Type} (body : S -> A -> result S) (s : S) (l : list A)
  : result S :=
  match l with
  | [] => Ok s
  | x :: l' => s' <- body s x ;; for_each body s' l'
  end.

(** ** Python text: [str.lower], [in], [str()] *)

Definition ascii_lower (c : ascii) : ascii :=
  let n := nat_of_ascii c in
  if (Nat.leb 65 n && Nat.leb n 90)%bool then ascii_of_nat (n + 32) else c.

Fixpoint lower (s : string) : string :=
  match s with
  | EmptyString => EmptyString
  | String c s' => String (ascii_lower c) (lower s')
  end.

Fixpoint startswith (s p : string) {struct p} : bool :=
  match p, s with
  | EmptyString, _ => true
  | String _ _, EmptyString => false
  | String a p', String b s' => (Ascii.eqb a b && startswith s' p')%bool
  end.

(** [str_contains needle hay] is Python's [needle in hay] on strings. *)
Fixpoint str_contains (needle hay : string) : bool :=
  (startswith hay needle
   || match hay with
      | EmptyString => false
      | String _ hay' => str_contains needle hay'
      end)%bool.

(** Values a parametrization or a fixture resolves to. *)
Inductive scalar : Type :=
  | SStr (s : string)
  | SInt (z : Z)
  | SBool (b : bool)
  | SNone.

(** Python's [str(v)]. *)
Definition py_str (v : scalar) : string :=
  match v with
  | SStr s => s
  | SInt z => NilZero.string_of_int (Z.to_int z)
  | SBool true => "True"
  | SBool false => "False"
  | SNone => "None"
  end.

(** Arguments a marker can carry. *)
#[warnings="-register-all"]
Inductive pyobj : Type :=
  | PyScalar (v : scalar)
  | PyList (l : list pyobj)
  | PyTuple (l : list pyobj).

(** ** [datetime.weekday()]

    Only the calendar date of a [datetime] matters for [weekday()].  The
    computation is the one of the standard library: the proleptic Gregorian
    ordinal of the date, shifted so that Monday is 0 and Sunday is 6. *)

Record datetime : Type := { year : Z; month : Z; day : Z }.

Definition _is_leap (y : Z) : bool :=
  (Z.eqb (y mod 4) 0
   && (negb (Z.eqb (y mod 100) 0) || Z.eqb (y mod 400) 0))%bool.

Definition _days_before_year (y : Z) : Z :=
  let y' := y - 1 in
  y' * 365 + y' / 4 - y' / 100 + y' / 400.

Definition _DAYS_BEFORE_MONTH : list Z :=
  [ -1; 0; 31; 59; 90; 120; 151; 181; 212; 243; 273; 304; 334 ].

Definition _days_before_month (y m : Z) : Z :=
  nth (Z.to_nat m) _DAYS_BEFORE_MONTH 0
  + (if (Z.ltb 2 m && _is_leap y)%bool then 1 else 0).

Definition toordinal (d : datetime) : Z :=
  _days_before_year (year d) + _days_before_month (year d) (month d) + day d.

Definition weekday (d : datetime) : Z := (toordinal d + 6) mod 7.

(** The calendar name of a date, independent of any numbering. *)
Inductive day_name : Type :=
  | Monday | Tuesday | Wednesday | Thursday | Friday | Saturday | Sunday.

Definition day_name_of (d : datetime) : day_name :=
  match weekday d with
  | 0 => Monday
  | 1 => Tuesday
  | 2 => Wednesday
  | 3 => Thursday
  | 4 => Friday
  | 5 => Saturday
  | _ => Sunday
  end.

(** ** Test items *)

Record Mark : Type := {
  mark_name : string;
  args : list pyobj;
  kwargs : list (string * pyobj)
}.

(** The [params] attribute of a callspec: a dict in pytest, but the code also
    caters for another iterable and for anything else. *)
Inductive params_obj : Type :=
  | ParamsDict (d : list (string * scalar))
  | ParamsIterable (l : list scalar)
  | ParamsOther.

Record CallSpec : Type := { params : option params_obj }.

Record Item : Type := {
  name : string;
  own_markers : list Mark;       (* markers set on the node itself *)
  parent_markers : list Mark;    (* markers of the enclosing nodes, closest first *)
  callspec : option CallSpec;
  funcargs : option (list (string * scalar))   (* [None]: absent or not a dict *)
}.

(** The identity of a test object. *)
Abbreviation item_id := nat (only parsing).
Definition heap : Type := item_id -> Item.

(** [node.get_closest_marker(name)]. *)
Definition get_closest_marker (nm : string) (it : Item) : option Mark :=
  List.find (fun m => String.eqb (mark_name m) nm)
            (own_markers it ++ parent_markers it).

(** [node.add_marker(mark)] with the default [append=True]. *)
Definition add_marker (h : heap) (test : item_id) (m : Mark) : heap :=
  fun i =>
    if Nat.eqb i test then
      {| name := name (h test);
         own_markers := own_markers (h test) ++ [m];
         parent_markers := parent_markers (h test);
         callspec := callspec (h test);
         funcargs := funcargs (h test) |}
    else h i.

(** What [pytest.mark] knows of the running session: the marker names
    registered through the [markers] ini option (pytest's built-in markers
    among them), whether unknown markers are an error ([--strict-markers]),
    and whether the warning filter turns [PytestUnknownMarkWarning] into an
    exception. *)
Record MarkConfig : Type := {
  markers : list string;
  strict_markers : bool;
  warnings_as_errors : bool
}.

Definition misspelt_parametrize : list string :=
  [ "parameterize"; "parametrise"; "parameterise" ].

(** [pytest.mark.__getattr__(name)].  The name is read at index 0 and must
    not start with an underscore.  Inside a session ([config] is [Some]) a
    name that is not registered fails under strict markers and for the
    misspellings of parametrize, and warns otherwise; outside a session
    ([None]) nothing more is checked. *)
Definition mark_getattr (config : option MarkConfig) (nm : string)
  : result Mark :=
  match nm with
  | EmptyString => Raise IndexError
  | String c _ =>
      if Ascii.eqb c "_"%char then Raise AttributeError
      else
        let mark := {| mark_name := nm; args := []; kwargs := [] |} in
        match config with
        | None => Ok mark
        | Some cfg =>
            if bool_decide (nm ∈ markers cfg) then Ok mark
            else if strict_markers cfg then Raise Failed
            else if bool_decide (nm ∈ misspelt_parametrize) then Raise Failed
            else if warnings_as_errors cfg then Raise PytestUnknownMarkWarning
            else Ok mark
        end
  end.

(** ** [DateFilterStage] (identical in [conftest.py] and [Pipeline.py]) *)

Module DateFilterStage.

Record t : Type := { _current_time : option datetime }.

Definition WEEKDAY_MAP : gmap string Z :=
  list_to_map
    [ ("sun", 0); ("sunday", 0);
      ("mon", 1); ("monday", 1);
      ("tue", 2); ("tuesday", 2);
      ("wed", 3); ("wednesday", 3);
      ("thu", 4); ("thursday", 4);
      ("fri", 5); ("friday", 5);
      ("sat", 6); ("saturday", 6) ].

Definition WEEKEND_DAYS : gset Z := {[ 5; 6 ]}.

(** The body shared by the two token loops: lower-case the token, expand
    "weekend", look a weekday name up, ignore anything else. *)
Definition add_token (allowed_days : gset Z) (tok : pyobj) : gset Z :=
  match tok with
  | PyScalar (SStr s) =>
      let arg_lower := lower s in
      if String.eqb arg_lower "weekend" then allowed_days ∪ WEEKEND_DAYS
      else match WEEKDAY_MAP !! arg_lower with
           | Some d => allowed_days ∪ {[ d ]}
           | None => allowed_days
           end
  | _ => allowed_days
  end.

Definition add_kwarg (allowed_days : gset Z) (kv : string * pyobj) : gset Z :=
  if String.eqb (lower (fst kv)) "days" then
    match snd kv with
    | PyList l | PyTuple l => foldl add_token allowed_days l
    | PyScalar _ => allowed_days
    end
  else allowed_days.

Definition allowed_days_of (run_days_mark : Mark) : gset Z :=
  let allowed_days := foldl add_token ∅ (args run_days_mark) in
  foldl add_kwarg allowed_days (kwargs run_days_mark).

Definition _should_run_today (h : heap) (test : item_id) (current_day : Z)
  : bool :=
  match get_closest_marker "run_days" (h test) with
  | None => true
  | Some run_days_mark =>
      let allowed_days := allowed_days_of run_days_mark in
      if decide (allowed_days = ∅) then true
      else bool_decide (current_day ∈ allowed_days)
  end.

(** [now] stands for [datetime.now()] at the time of the call. *)
Definition current_day (now : datetime) (self : t) : Z :=
  weekday (default now (_current_time self)).

Definition apply (now : datetime) (self : t) (h : heap) (tests : list item_id)
  : list item_id :=
  foldl (fun filtered_tests test =>
           if _should_run_today h test (current_day now self)
           then filtered_tests ++ [test]
           else filtered_tests)
        [] tests.

End DateFilterStage.

(** ** [FixtureParameterGroups] (identical in both files) *)

Module FixtureParameterGroups.

Record t : Type := {
  groups : gmap string (list item_id);
  unmatched : list item_id
}.

Definition get_group (self : t) (group_name : string) : list item_id :=
  default [] (groups self !! group_name).

Definition get_all_groups (self : t) : gmap string (list item_id) :=
  groups self.

End FixtureParameterGroups.

(** [{group_name: [] for group_name in keys}]. *)
Definition empty_groups (keys : list string) : gmap string (list item_id) :=
  foldl (fun groups group_name => <[group_name := []]> groups) ∅ keys.

(** [groups[group_name].append(test)]; a missing key raises. *)
Definition groups_append (groups : gmap string (list item_id))
    (group_name : string) (test : item_id)
  : result (gmap string (list item_id)) :=
  match groups !! group_name with
  | Some l => Ok (<[group_name := l ++ [test]]> groups)
  | None => Raise KeyError
  end.

(** ** [conftest.py] *)

Module Conftest.

Module FixtureParameterGroupingStage.

(** [group_mappings] is a dict; its items are kept in insertion order. *)
Record t : Type := { group_mappings : list (string * list string) }.

(** The first half of [_find_matching_groups]: the values gathered from
    [callspec.params] and then from [funcargs]. *)
Definition parameter_values_of (test : Item) : list scalar :=
  let parameter_values := [] in
  let parameter_values :=
    match callspec test with
    | Some cs =>
        match params cs with
        | None => parameter_values                 (* default [{}] *)
        | Some (ParamsDict d) => parameter_values ++ map snd d
        | Some (ParamsIterable l) => parameter_values ++ l
        | Some ParamsOther => parameter_values     (* [except: pass] *)
        end
    | None => parameter_values
    end in
  match funcargs test with
  | Some d => parameter_values ++ map snd d
  | None => parameter_values
  end.

(** [any(identifier.lower() in str(param_value).lower() for ...)]. *)
Definition any_identifier (identifiers : list string) (param_value : scalar)
  : bool :=
  existsb (fun identifier =>
             str_contains (lower identifier) (lower (py_str param_value)))
          identifiers.

Definition _find_matching_groups (self : t) (test : Item) : list string :=
  foldl (fun matching_groups param_value =>
           foldl (fun matching_groups (kv : string * list string) =>
                    if any_identifier (snd kv) param_value
                    then matching_groups ++ [fst kv]
                    else matching_groups)
                 matching_groups (group_mappings self))
        [] (parameter_values_of test).

(** The locals of [apply] together with the store of test objects. *)
Record locals : Type := {
  groups : gmap string (list item_id);
  unmatched : list item_id;
  store : heap
}.

Definition assign (config : option MarkConfig) (test : item_id) (st : locals)
    (group_name : string) : result locals :=
  groups' <- groups_append (groups st) group_name test ;;
  m <- mark_getattr config group_name ;;
  Ok {| groups := groups';
        unmatched := unmatched st;
        store := add_marker (store st) test m |}.

Definition step (config : option MarkConfig) (self : t) (st : locals)
    (test : item_id) : result locals :=
  let assigned_groups := _find_matching_groups self (store st test) in
  match assigned_groups with
  | [] => Ok {| groups := groups st;
                unmatched := unmatched st ++ [test];
                store := store st |}
  | _ :: _ => for_each (assign config test) st assigned_groups
  end.

(** The loop of [apply], up to the [return]. *)
Definition run (config : option MarkConfig) (self : t) (h : heap)
    (tests : list item_id) : result locals :=
  for_each (step config self)
           {| groups := empty_groups (map fst (group_mappings self));
              unmatched := [];
              store := h |}
           tests.

(** The aggregate the locals of [apply] amount to when the loop ends
    (the value of the commented-out [return]). *)
Definition grouping_result (config : option MarkConfig) (self : t) (h : heap)
    (tests : list item_id) : result FixtureParameterGroups.t :=
  st <- run config self h tests ;;
  Ok {| FixtureParameterGroups.groups := groups st;
        FixtureParameterGroups.unmatched := unmatched st |}.

(** [apply] ends in [return tests]: the caller gets the list it passed
    in, and the store in which the markers were added. *)
Definition apply (config : option MarkConfig) (self : t) (h : heap)
    (tests : list item_id) : result (list item_id * heap) :=
  st <- run config self h tests ;;
  Ok (tests, store st).

End FixtureParameterGroupingStage.

Inductive stage : Type :=
  | DateFilter (s : DateFilterStage.t)
  | FixtureParameterGrouping (s : FixtureParameterGroupingStage.t).

Definition stage_apply (config : option MarkConfig) (now : datetime)
    (st : stage) (r : list item_id * heap) : result (list item_id * heap) :=
  match st with
  | DateFilter s => Ok (DateFilterStage.apply now s (snd r) (fst r), snd r)
  | FixtureParameterGrouping s =>
      FixtureParameterGroupingStage.apply config s (snd r) (fst r)
  end.

Module TestFilterPipeline.

Record t : Type := { _stages : list stage }.

(** What the class body defines ([_build_stages_from_config] is commented
    out in the source), plus the instance attribute [_stages]. *)
Definition attributes : list string :=
  [ "__init__"; "add_stage"; "apply"; "clear"; "stages"; "_stages" ].

Definition getattr (attr : string) : result unit :=
  if bool_decide (attr ∈ attributes) then Ok tt else Raise AttributeError.

(** [__init__(stages=None)]: [stages or []]. *)
Definition init (stages : option (list stage)) : t :=
  {| _stages := default [] stages |}.

Definition add_stage (self : t) (s : stage) : t :=
  {| _stages := _stages self ++ [s] |}.

Definition clear (self : t) : t := {| _stages := [] |}.

Definition apply (config : option MarkConfig) (now : datetime) (self : t)
    (h : heap) (tests : list item_id) : result (list item_id * heap) :=
  _ <- match _stages self with
       | [] => getattr "_build_stages_from_config"
       | _ :: _ => Ok tt
       end ;;
  for_each (fun result stage => stage_apply config now stage result)
           (tests, h) (_stages self).

End TestFilterPipeline.

End Conftest.

(** ** [Pipeline.py] *)

Module PipelinePy.

Module FixtureParameterGroupingStage.

Record t : Type := {
  fixture_name : string;
  group_mappings : list (string * list string);
  _value_to_group : gmap string string
}.

(** [__init__]: the reverse mapping is filled group by group, a later
    group overwriting an earlier one on a shared value. *)
Definition reverse_mapping (group_mappings : list (string * list string))
  : gmap string string :=
  foldl (fun acc (kv : string * list string) =>
           foldl (fun acc value => <[value := fst kv]> acc) acc (snd kv))
        ∅ group_mappings.

Definition init (fixture_name : string)
    (group_mappings : list (string * list string)) : t :=
  {| fixture_name := fixture_name;
     group_mappings := group_mappings;
     _value_to_group := reverse_mapping group_mappings |}.

Definition dict_get (d : list (string * scalar)) (k : string)
  : option scalar :=
  snd <$> List.find (fun kv => String.eqb (fst kv) k) d.

(** [callspec.params] is a dict in pytest.  On a list, [in] compares the
    elements with the name and the subscript then raises; anything else
    does not support [in]. *)
Definition _get_fixture_parameter_value (self : t) (test : Item)
  : result (option string) :=
  match callspec test with
  | None => Ok None
  | Some cs =>
      match params cs with
      | None => Ok None
      | Some (ParamsDict d) =>
          match dict_get d (fixture_name self) with
          | Some SNone => Ok None
          | Some param_value => Ok (Some (py_str param_value))
          | None => Ok None
          end
      | Some (ParamsIterable l) =>
          if existsb (fun v => match v with
                               | SStr s => String.eqb s (fixture_name self)
                               | _ => false
                               end) l
          then Raise TypeError else Ok None
      | Some ParamsOther => Raise TypeError
      end
  end.

Definition step (self : t) (h : heap) (st : FixtureParameterGroups.t)
    (test : item_id) : result FixtureParameterGroups.t :=
  let unmatch :=
    Ok {| FixtureParameterGroups.groups := FixtureParameterGroups.groups st;
          FixtureParameterGroups.unmatched :=
            FixtureParameterGroups.unmatched st ++ [test] |} in
  parameter_value <- _get_fixture_parameter_value self (h test) ;;
  match parameter_value with
  | Some parameter_value =>
      if String.eqb parameter_value "" then unmatch
      else match _value_to_group self !! parameter_value with
           | Some group_name =>
               groups' <- groups_append (FixtureParameterGroups.groups st)
                                        group_name test ;;
               Ok {| FixtureParameterGroups.groups := groups';
                     FixtureParameterGroups.unmatched :=
                       FixtureParameterGroups.unmatched st |}
           | None => unmatch
           end
  | None => unmatch
  end.

Definition apply (self : t) (h : heap) (tests : list item_id)
  : result FixtureParameterGroups.t :=
  for_each (step self h)
           {| FixtureParameterGroups.groups :=
                empty_groups (map fst (group_mappings self));
              FixtureParameterGroups.unmatched := [] |}
           tests.

End FixtureParameterGroupingStage.

(** What flows between stages: a list of tests or a grouping result. *)
Inductive value : Type :=
  | Tests (l : list item_id)
  | Groups (g : FixtureParameterGroups.t).

Inductive stage : Type :=
  | DateFilter (s : DateFilterStage.t)
  | FixtureParameterGrouping (s : FixtureParameterGroupingStage.t).

(** Both stages iterate over their argument; a grouping result is not
    iterable. *)
Definition stage_apply (now : datetime) (h : heap) (st : stage) (v : value)
  : result value :=
  match v with
  | Groups _ => Raise TypeError
  | Tests l =>
      match st with
      | DateFilter s => Ok (Tests (DateFilterStage.apply now s h l))
      | FixtureParameterGrouping s =>
          g <- FixtureParameterGroupingStage.apply s h l ;; Ok (Groups g)
      end
  end.

Module TestFilterPipeline.

Record t : Type := { _stages : list stage }.

Definition init (stages : option (list stage)) : t :=
  {| _stages := default [] stages |}.

Definition add_stage (self : t) (s : stage) : t :=
  {| _stages := _stages self ++ [s] |}.

Definition clear (self : t) : t := {| _stages := [] |}.

Definition apply (now : datetime) (self : t) (h : heap)
    (tests : list item_id) : result value :=
  for_each (fun result stage => stage_apply now h stage result)
           (Tests tests) (_stages self).

End TestFilterPipeline.

End PipelinePy.

(** ** Properties stated about the code *)

(** [a] occurs in [b] as a contiguous piece. *)
Definition is_substring (a b : string) : Prop :=
  exists p s : string, b = String.append p (String.append a s).

(** Some list of the grouping result holds [t]. *)
Definition in_some_group (g : FixtureParameterGroups.t) (t : item_id) : Prop :=
  exists (k : string) (l : list item_id),
    FixtureParameterGroups.groups g !! k = Some l /\ t ∈ l.

(** The invariant of a grouping result over the input [tests]: a test is
    unmatched or in some group, never both, and no list holds a test twice. *)
Definition grouping_invariant (tests : list item_id)
    (g : FixtureParameterGroups.t) : Prop :=
  (forall t, t ∈ tests ->
     (t ∈ FixtureParameterGroups.unmatched g /\ ~ in_some_group g t)
     \/ ((t ∉ FixtureParameterGroups.unmatched g) /\ in_some_group g t))
  /\ (forall k l t,
        FixtureParameterGroups.groups g !! k = Some l ->
        t ∈ l -> count_occ Nat.eq_dec l t = 1%nat).

(** Names that have a first character, other than an underscore. *)
Definition valid_marker_name (nm : string) : Prop :=
  match nm with
  | EmptyString => False
  | String c _ => c <> "_"%char
  end.

(** Group names that [pytest.mark] accepts as marker names in the session:
    well-formed, and either registered or merely warned about. *)
Definition accepted_marker_name (config : option MarkConfig) (nm : string)
  : Prop :=
  valid_marker_name nm
  /\ match config with
     | None => True
     | Some cfg =>
         nm ∈ markers cfg
         \/ (strict_markers cfg = false
             /\ (nm ∉ misspelt_parametrize)
             /\ warnings_as_errors cfg = false)
     end.

(** ** What the specification asks for, to be compared with the code *)

(** Specification 4.4, step 1: the candidate values of a test are the values
    of its resolved-parametrization map; if that map or its source is
    absent, the values of its resolved fixture-value map. *)
Definition spec_candidate_values (test : Item) : list scalar :=
  let fixture_values :=
    match funcargs test with
    | Some f => map snd f
    | None => []
    end in
  match callspec test with
  | Some cs =>
      match params cs with
      | Some (ParamsDict d) => map snd d
      | _ => fixture_values
      end
  | None => fixture_values
  end.

#[global] Instance day_name_eq_dec : EqDecision day_name.
Proof. solve_decision. Defined.

(** Specification 4.3, step 3: a token is lower-cased; weekend stands for
    Friday and Saturday; a weekday name or abbreviation stands for its day;
    anything else is ignored. *)
Definition spec_day_table : list (string * day_name) :=
  [ ("sun", Sunday); ("sunday", Sunday);
    ("mon", Monday); ("monday", Monday);
    ("tue", Tuesday); ("tuesday", Tuesday);
    ("wed", Wednesday); ("wednesday", Wednesday);
    ("thu", Thursday); ("thursday", Thursday);
    ("fri", Friday); ("friday", Friday);
    ("sat", Saturday); ("saturday", Saturday) ].

Definition spec_days_of_token (token : string) : list day_name :=
  if String.eqb (lower token) "weekend" then [Friday; Saturday]
  else
    match List.find (fun kv => String.eqb (fst kv) (lower token))
                    spec_day_table with
    | Some kv => [snd kv]
    | None => []
    end.

Definition spec_strings (l : list pyobj) : list string :=
  flat_map (fun o => match o with PyScalar (SStr s) => [s] | _ => [] end) l.

(** The tokens of an annotation: its positional strings and the strings of
    the list under its [days] keyword. *)
Definition spec_tokens (m : Mark) : list string :=
  spec_strings (args m)
  ++ flat_map (fun kv => if String.eqb (fst kv) "days"
                         then match snd kv with
                              | PyList l => spec_strings l
                              | _ => []
                              end
                         else [])
              (kwargs m).

(** Specification 4.3, steps 2, 4 and 5: a test without annotation, or whose
    annotation allows no day, is eligible; otherwise it is eligible when
    today is among the allowed days. *)
Definition spec_eligible (today : day_name) (test : Item) : bool :=
  match get_closest_marker "run_days" test with
  | None => true
  | Some m =>
      match flat_map spec_days_of_token (spec_tokens m) with
      | [] => true
      | allowed => bool_decide (today ∈ allowed)
      end
  end.

(** Specification 4.3, output: the eligible tests in their input order, for
    the injected date. *)
Definition spec_date_filter (today : datetime) (h : heap)
    (tests : list item_id) : list item_id :=
  List.filter (fun test => spec_eligible (day_name_of today) (h test)) tests.

(** The groups one value names, in the order of the mapping. *)
Definition groups_named (self : Conftest.FixtureParameterGroupingStage.t)
    (v : scalar) : list string :=
  map fst
    (List.filter
       (fun kv => Conftest.FixtureParameterGroupingStage.any_identifier (snd kv) v)
       (Conftest.FixtureParameterGroupingStage.group_mappings self)).

(** The tests [apply] leaves unmatched, and those it files under a group:
    one entry per matching group name reported for the test. *)
Definition matches_nothing (self : Conftest.FixtureParameterGroupingStage.t)
    (h : heap) (test : item_id) : bool :=
  match Conftest.FixtureParameterGroupingStage._find_matching_groups
          self (h test) with
  | [] => true
  | _ :: _ => false
  end.

Definition members (self : Conftest.FixtureParameterGroupingStage.t)
    (h : heap) (tests : list item_id) (k : string) : list item_id :=
  flat_map
    (fun test =>
       replicate
         (count_occ string_dec
            (Conftest.FixtureParameterGroupingStage._find_matching_groups
               self (h test)) k)
         test)
    tests.

(** Two stores that agree on what the grouping stage reads. *)
Definition same_params (h1 h2 : heap) : Prop :=
  forall i, callspec (h1 i) = callspec (h2 i)
            /\ funcargs (h1 i) = funcargs (h2 i).

(** ** Sample objects *)

(** A session with pytest's own markers registered and the default
    settings, as the repository runs, and the same session with
    [--strict-markers]. *)
Definition builtin_markers : list string :=
  [ "filterwarnings"; "skip"; "skipif"; "xfail"; "parametrize";
    "usefixtures"; "tryfirst"; "trylast" ].

Definition default_session : option MarkConfig :=
  Some {| markers := builtin_markers;
          strict_markers := false;
          warnings_as_errors := false |}.


Definition plain_item (ms : list Mark) (cs : option CallSpec)
    (fa : option (list (string * scalar))) : Item :=
  {| name := "test_sleep"; own_markers := ms; parent_markers := [];
     callspec := cs; funcargs := fa |}.

Definition run_days (tokens : list string) : Mark :=
  {| mark_name := "run_days";
     args := map (fun s => PyScalar (SStr s)) tokens;
     kwargs := [] |}.

Definition parametrized (k : string) (v : scalar) : Item :=
  plain_item [] (Some {| params := Some (ParamsDict [(k, v)]) |}) (Some []).

(** A store holding the listed objects at identities 0, 1, ... *)
Definition heap_of (l : list Item) : heap :=
  fun i => nth i l (plain_item [] None None).

Definition heap_days : heap :=
  heap_of [ plain_item [run_days ["mon"]] None (Some []);
            plain_item [run_days ["weekend"]] None (Some []);
            plain_item [run_days ["funday"]] None (Some []);
            plain_item [] None (Some []) ].

Definition on (y m d : Z) : DateFilterStage.t :=
  {| DateFilterStage._current_time :=
       Some {| year := y; month := m; day := d |} |}.

Definition epoch : datetime := {| year := 1970; month := 1; day := 1 |}.

Definition fast_slow : Conftest.FixtureParameterGroupingStage.t :=
  {| Conftest.FixtureParameterGroupingStage.group_mappings :=
       [ ("fast", ["quick"]); ("slow", ["slow"]) ] |}.

Definition heap_params : heap :=
  heap_of [ parametrized "sleep_time" (SStr "quick_mode");
            parametrized "sleep_time" (SStr "quick_slow_combo");
            parametrized "sleep_time" (SStr "other") ].

(** One test with two resolved parameters, both naming the group "fast". *)
Definition heap_twice : heap :=
  heap_of [ plain_item []
              (Some {| params := Some (ParamsDict [ ("a", SStr "quick");
                                                    ("b", SStr "quickly") ]) |})
              (Some []) ].

(** A parametrized test whose parameter names no group while a fixture value
    does. *)
Definition heap_both : heap :=
  heap_of [ plain_item []
              (Some {| params := Some (ParamsDict [ ("mode", SStr "other") ]) |})
              (Some [ ("sleep_time", SStr "quick") ]) ].

(** The stage of [Pipeline.py] reading the fixture [sleep_time], and two
    tests whose parameter is the identifier itself and a text containing it. *)
Definition sleep_time_groups : PipelinePy.FixtureParameterGroupingStage.t :=
  PipelinePy.FixtureParameterGroupingStage.init "sleep_time"
    [ ("fast", ["quick"]); ("slow", ["slow"]) ].

Definition heap_exact : heap :=
  heap_of [ parametrized "sleep_time" (SStr "quick");
            parametrized "sleep_time" (SStr "quick_mode") ].

(** ** The collection hooks *)

(** The marker [pytest.mark.__getattr__] makes for a valid name. *)
Definition group_mark (group_name : string) : Mark :=
  {| mark_name := group_name; args := []; kwargs := [] |}.

(** [pytest_collection_modifyitems] of [conftest.py]: a pipeline holding the
    grouping stage alone is applied and its result replaces [items]. *)
Module ConftestHook.

Definition hook_stage : Conftest.FixtureParameterGroupingStage.t :=
  {| Conftest.FixtureParameterGroupingStage.group_mappings :=
       [ ("fast", ["quick"; "mode_a"]); ("slow", ["slow"; "detailed"]) ] |}.

Definition pytest_collection_modifyitems (config : option MarkConfig)
    (now : datetime) (h : heap) (items : list item_id)
  : result (list item_id * heap) :=
  let pipeline := Conftest.TestFilterPipeline.init None in
  let pipeline :=
    Conftest.TestFilterPipeline.add_stage pipeline
      (Conftest.FixtureParameterGrouping hook_stage) in
  Conftest.TestFilterPipeline.apply config now pipeline h items.

End ConftestHook.

(** [pytest_collection_modifyitems] of [Pipeline.py]. *)
Module PipelinePyHook.

(** What [config.getoption] answers for the two options the hook reads: the
    truth value of [--run-fast-only] and the value of [--group]. *)
Record Config : Type := { run_fast_only : bool; group : option string }.

Definition hook_stage : PipelinePy.FixtureParameterGroupingStage.t :=
  PipelinePy.FixtureParameterGroupingStage.init "test_mode"
    [ ("fast", ["mode_a"; "quick"]);
      ("slow", ["mode_b"; "detailed"]);
      ("experimental", ["mode_c"; "beta"]) ].

(** The final content of [items].  [x in groups.get_group_names()] is
    membership among the keys of [groups]. *)
Definition pytest_collection_modifyitems (now : datetime) (config : Config)
    (h : heap) (items : list item_id) : result (list item_id) :=
  let pipeline := PipelinePy.TestFilterPipeline.init None in
  let date_filter := {| DateFilterStage._current_time := None |} in
  let pipeline :=
    PipelinePy.TestFilterPipeline.add_stage pipeline
      (PipelinePy.DateFilter date_filter) in
  filtered_items <- PipelinePy.TestFilterPipeline.apply now pipeline h items ;;
  items <- match filtered_items with
           | PipelinePy.Tests l => Ok l
           | PipelinePy.Groups _ => Raise TypeError
           end ;;
  groups <- PipelinePy.FixtureParameterGroupingStage.apply hook_stage h items ;;
  let items :=
    if run_fast_only config
    then FixtureParameterGroups.get_group groups "fast"
    else items in
  let items :=
    match group config with
    | Some target_group =>
        if (negb (String.eqb target_group "")
            && bool_decide
                 (target_group ∈ dom (FixtureParameterGroups.groups groups)))%bool
        then FixtureParameterGroups.get_group groups target_group
        else items
    | None => items
    end in
  Ok items.

End PipelinePyHook.

(** ** Vocabulary of the further properties *)

(** A test object with markers appended to its own. *)
Definition with_markers (it : Item) (ms : list Mark) : Item :=
  {| name := name it;
     own_markers := own_markers it ++ ms;
     parent_markers := parent_markers it;
     callspec := callspec it;
     funcargs := funcargs it |}.

(** The marks the grouping stage of [conftest.py] asks for on object [i]
    while it walks through [tests]. *)
Definition marks_for (self : Conftest.FixtureParameterGroupingStage.t)
    (h : heap) (tests : list item_id) (i : item_id) : list Mark :=
  flat_map
    (fun test =>
       if Nat.eqb test i
       then map group_mark
              (Conftest.FixtureParameterGroupingStage._find_matching_groups
                 self (h test))
       else [])
    tests.

(** The same stage with every identifier lower-cased. *)
Definition lower_identifiers (self : Conftest.FixtureParameterGroupingStage.t)
  : Conftest.FixtureParameterGroupingStage.t :=
  {| Conftest.FixtureParameterGroupingStage.group_mappings :=
       map (fun kv => (fst kv, map lower (snd kv)))
           (Conftest.FixtureParameterGroupingStage.group_mappings self) |}.

(** A test as pytest builds it: [callspec.params], when present, is a dict. *)
Definition dict_params (it : Item) : Prop :=
  match callspec it with
  | Some cs =>
      match params cs with
      | Some (ParamsIterable _) | Some ParamsOther => False
      | Some (ParamsDict _) | None => True
      end
  | None => True
  end.

(** The group under which the stage of [Pipeline.py] files a test, if any:
    the group recorded for the text of the named fixture's value, unless
    that text is empty. *)
Definition filed_under (self : PipelinePy.FixtureParameterGroupingStage.t)
    (it : Item) : option string :=
  match PipelinePy.FixtureParameterGroupingStage._get_fixture_parameter_value
          self it with
  | Ok (Some parameter_value) =>
      if String.eqb parameter_value "" then None
      else PipelinePy.FixtureParameterGroupingStage._value_to_group self
             !! parameter_value
  | Ok None | Raise _ => None
  end.

(** A grouping result as found when the loop ends. *)
Definition sample_result : FixtureParameterGroups.t :=
  {| FixtureParameterGroups.groups :=
       {[ "fast" := [0%nat; 1%nat]; "slow" := [1%nat] ]};
     FixtureParameterGroups.unmatched := [2%nat] |}.

(** * Proofs *)

(** ** Loops that append *)

Lemma foldl_append_filter {A : Type} (p : A -> bool) (l acc : list A) :
  foldl (fun acc x => if p x then acc ++ [x] else acc) acc l
  = acc ++ List.filter p l.
Proof.
  revert acc. induction l as [|x l IH]; intros acc; simpl.
  - by rewrite app_nil_r.
  - rewrite IH. destruct (p x); [|done].
    by rewrite <- app_assoc.
Qed.

Lemma filter_sublist {A : Type} (p : A -> bool) (l : list A) :
  List.filter p l `sublist_of` l.
Proof.
  induction l as [|x l IH]; simpl; [constructor|].
  destruct (p x); by constructor.
Qed.

Lemma elem_of_bool_filter {A : Type} (p : A -> bool) (l : list A) (x : A) :
  x ∈ List.filter p l <-> x ∈ l /\ p x = true.
Proof. rewrite !list_elem_of_In. apply filter_In. Qed.

(** ** The calendar *)

Lemma weekday_range (d : datetime) : 0 <= weekday d < 7.
Proof. unfold weekday. apply Z.mod_pos_bound. lia. Qed.

Lemma weekday_cases (d : datetime) :
  weekday d = 0 \/ weekday d = 1 \/ weekday d = 2 \/ weekday d = 3
  \/ weekday d = 4 \/ weekday d = 5 \/ weekday d = 6.
Proof. pose proof (weekday_range d). lia. Qed.

(** ** [DateFilterStage] *)

Section DateFilter.

Import DateFilterStage.

Lemma apply_eq_filter (now : datetime) (self : t) (h : heap)
    (tests : list item_id) :
  apply now self h tests
  = List.filter (fun test => _should_run_today h test (current_day now self))
                tests.
Proof. unfold apply. by rewrite foldl_append_filter. Qed.

Lemma elem_of_apply (now : datetime) (self : t) (h : heap)
    (tests : list item_id) (test : item_id) :
  test ∈ apply now self h tests
  <-> test ∈ tests /\ _should_run_today h test (current_day now self) = true.
Proof. rewrite apply_eq_filter. by rewrite elem_of_bool_filter. Qed.

Lemma should_run_unmarked (h : heap) (test : item_id) (d : Z) :
  get_closest_marker "run_days" (h test) = None ->
  _should_run_today h test d = true.
Proof. intros E. unfold _should_run_today. by rewrite E. Qed.

Lemma should_run_empty (h : heap) (test : item_id) (m : Mark) (d : Z) :
  get_closest_marker "run_days" (h test) = Some m ->
  allowed_days_of m = ∅ ->
  _should_run_today h test d = true.
Proof.
  intros E Hm. unfold _should_run_today. rewrite E. simpl.
  by destruct (decide (allowed_days_of m = ∅)).
Qed.

Lemma should_run_nonempty (h : heap) (test : item_id) (m : Mark) (d : Z) :
  get_closest_marker "run_days" (h test) = Some m ->
  allowed_days_of m <> ∅ ->
  _should_run_today h test d = bool_decide (d ∈ allowed_days_of m).
Proof.
  intros E Hm. unfold _should_run_today. rewrite E. simpl.
  by destruct (decide (allowed_days_of m = ∅)).
Qed.

Lemma allowed_days_mon : allowed_days_of (run_days ["mon"]) = {[ 1 ]}.
Proof. vm_compute. reflexivity. Qed.

Lemma allowed_days_weekend : allowed_days_of (run_days ["weekend"]) = {[ 5; 6 ]}.
Proof. vm_compute. reflexivity. Qed.

Lemma allowed_days_funday : allowed_days_of (run_days ["funday"]) = ∅.
Proof. vm_compute. reflexivity. Qed.

Lemma should_run_mon (d : Z) :
  _should_run_today heap_days 0%nat d = bool_decide (d = 1).
Proof.
  rewrite (should_run_nonempty heap_days 0%nat (run_days ["mon"]));
    [|reflexivity|rewrite allowed_days_mon; set_solver].
  rewrite allowed_days_mon. apply bool_decide_ext. set_solver.
Qed.

Lemma should_run_weekend (d : Z) :
  _should_run_today heap_days 1%nat d = bool_decide (d = 5 \/ d = 6).
Proof.
  rewrite (should_run_nonempty heap_days 1%nat (run_days ["weekend"]));
    [|reflexivity|rewrite allowed_days_weekend; set_solver].
  rewrite allowed_days_weekend. apply bool_decide_ext. set_solver.
Qed.

End DateFilter.

Ltac by_weekday d :=
  unfold DateFilterStage.current_day, day_name_of; simpl;
  destruct (weekday_cases d) as [E|[E|[E|[E|[E|[E|E]]]]]]; rewrite E;
  case_bool_decide; split; intros HH;
  solve [ done | lia | destruct HH; (done || lia) | (left; done) | (right; done) ].

(** C1: a test annotated [run_days("mon")] is kept exactly when the injected
    [datetime] falls on a Tuesday, because the name table counts from Sunday
    while [weekday()] counts from Monday.  On Monday 2024-01-01 the test is
    dropped, on Tuesday 2024-01-02 it is kept. *)
Theorem mon_test_runs_on_tuesday :
  (forall now d : datetime,
     0%nat ∈ DateFilterStage.apply now
               {| DateFilterStage._current_time := Some d |} heap_days [0%nat]
     <-> day_name_of d = Tuesday)
  /\ day_name_of {| year := 2024; month := 1; day := 1 |} = Monday
  /\ DateFilterStage.apply epoch (on 2024 1 1) heap_days [0%nat] = []
  /\ day_name_of {| year := 2024; month := 1; day := 2 |} = Tuesday
  /\ DateFilterStage.apply epoch (on 2024 1 2) heap_days [0%nat] = [0%nat].
Proof.
  split; [|by vm_compute].
  intros now d. rewrite elem_of_apply, should_run_mon.
  rewrite list_elem_of_singleton.
  by_weekday d.
Qed.

(** C2: a test annotated [run_days("weekend")] is kept exactly when the
    injected [datetime] falls on a Saturday or a Sunday: the set {5, 6} is
    read in the Monday-first numbering of [weekday()].  On Friday 2024-01-05
    the test is dropped, on Sunday 2024-01-07 it is kept. *)
Theorem weekend_test_runs_on_saturday_sunday :
  (forall now d : datetime,
     1%nat ∈ DateFilterStage.apply now
               {| DateFilterStage._current_time := Some d |} heap_days [1%nat]
     <-> day_name_of d = Saturday \/ day_name_of d = Sunday)
  /\ day_name_of {| year := 2024; month := 1; day := 5 |} = Friday
  /\ DateFilterStage.apply epoch (on 2024 1 5) heap_days [1%nat] = []
  /\ day_name_of {| year := 2024; month := 1; day := 7 |} = Sunday
  /\ DateFilterStage.apply epoch (on 2024 1 7) heap_days [1%nat] = [1%nat].
Proof.
  split; [|by vm_compute].
  intros now d. rewrite elem_of_apply, should_run_weekend.
  rewrite list_elem_of_singleton.
  by_weekday d.
Qed.

(** C8: a test without a [run_days] marker, or whose marker yields no
    allowed day, passes [_should_run_today] on every day and is kept by
    [apply] whatever the current time is. *)
Theorem unconstrained_test_always_kept (now : datetime)
    (self : DateFilterStage.t) (h : heap) (tests : list item_id)
    (test : item_id) :
  test ∈ tests ->
  (get_closest_marker "run_days" (h test) = None
   \/ exists m, get_closest_marker "run_days" (h test) = Some m
                /\ DateFilterStage.allowed_days_of m = ∅) ->
  (forall d : Z, DateFilterStage._should_run_today h test d = true)
  /\ test ∈ DateFilterStage.apply now self h tests.
Proof.
  intros Hin Hm.
  assert (forall d, DateFilterStage._should_run_today h test d = true) as Hrun.
  { intros d. destruct Hm as [E|(m & E & Hempty)].
    - by apply should_run_unmarked.
    - by eapply should_run_empty. }
  split; [done|]. apply elem_of_apply. auto.
Qed.

Lemma unconstrained_test_always_kept_witness :
  (forall d : Z, DateFilterStage._should_run_today heap_days 2%nat d = true)
  /\ 2%nat ∈ DateFilterStage.apply epoch (on 2024 1 3) heap_days
              [0%nat; 1%nat; 2%nat; 3%nat].
Proof.
  apply (unconstrained_test_always_kept epoch (on 2024 1 3) heap_days
           [0%nat; 1%nat; 2%nat; 3%nat] 2%nat).
  - apply list_elem_of_In. simpl. tauto.
  - right. exists (run_days ["funday"]). split; [reflexivity|].
    vm_compute. reflexivity.
Defined.

(** C9: the output of [DateFilterStage.apply] is a sub-sequence of the
    input, in input order, made of the tests that pass [_should_run_today].
    It is not the sub-sequence of the tests eligible today by the
    specification's rules: on Monday 2024-01-01 the test annotated mon is
    eligible and is dropped, and on Sunday 2024-01-07 the test annotated
    weekend is not eligible and is kept. *)
Theorem date_filter_output_differs_from_eligible :
  (forall now self h tests,
     DateFilterStage.apply now self h tests `sublist_of` tests)
  /\ (forall now self h tests test,
        test ∈ DateFilterStage.apply now self h tests
        <-> test ∈ tests
            /\ DateFilterStage._should_run_today h test
                 (DateFilterStage.current_day now self) = true)
  /\ day_name_of {| year := 2024; month := 1; day := 1 |} = Monday
  /\ spec_date_filter {| year := 2024; month := 1; day := 1 |} heap_days
       [0%nat; 1%nat; 2%nat; 3%nat] = [0%nat; 2%nat; 3%nat]
  /\ DateFilterStage.apply epoch (on 2024 1 1) heap_days
       [0%nat; 1%nat; 2%nat; 3%nat] = [2%nat; 3%nat]
  /\ day_name_of {| year := 2024; month := 1; day := 7 |} = Sunday
  /\ spec_date_filter {| year := 2024; month := 1; day := 7 |} heap_days
       [0%nat; 1%nat; 2%nat; 3%nat] = [2%nat; 3%nat]
  /\ DateFilterStage.apply epoch (on 2024 1 7) heap_days
       [0%nat; 1%nat; 2%nat; 3%nat] = [1%nat; 2%nat; 3%nat].
Proof.
  split.
  { intros now self h tests. rewrite apply_eq_filter. apply filter_sublist. }
  split.
  { intros now self h tests test. apply elem_of_apply. }
  by vm_compute.
Qed.

(** ** Substrings *)

Lemma startswith_spec (s p : string) :
  startswith s p = true <-> exists r, s = String.append p r.
Proof.
  revert s. induction p as [|a p IH]; intros s; simpl.
  - split; [eauto|done].
  - destruct s as [|b s].
    + split; [done|]. by intros [r Hr].
    + rewrite andb_true_iff, Ascii.eqb_eq, IH. split.
      * intros [-> [r ->]]. by exists r.
      * intros [r Hr]. injection Hr as -> ->. eauto.
Qed.

Lemma str_contains_spec (needle hay : string) :
  str_contains needle hay = true <-> is_substring needle hay.
Proof.
  unfold is_substring. induction hay as [|b hay IH]; simpl.
  - rewrite orb_false_r, startswith_spec. split.
    + intros [r Hr]. by exists EmptyString, r.
    + intros (p & s & Hps). destruct p; [eauto|done].
  - rewrite orb_true_iff, startswith_spec, IH. split.
    + intros [[r Hr]|(p & s & ->)].
      * by exists EmptyString, r.
      * by exists (String b p), s.
    + intros (p & s & Hps). destruct p as [|c p]; simpl in Hps.
      * left. eauto.
      * right. injection Hps as -> ->. eauto.
Qed.

(** ** [_find_matching_groups] *)

Lemma foldl_append_map_filter {A B : Type} (p : A -> bool) (g : A -> B)
    (l : list A) (acc : list B) :
  foldl (fun acc x => if p x then acc ++ [g x] else acc) acc l
  = acc ++ map g (List.filter p l).
Proof.
  revert acc. induction l as [|x l IH]; intros acc; simpl.
  - by rewrite app_nil_r.
  - rewrite IH. destruct (p x); [|done].
    by rewrite <- app_assoc.
Qed.

Lemma foldl_append_flat_map {A B : Type} (f : A -> list B) (l : list A)
    (acc : list B) :
  foldl (fun acc x => acc ++ f x) acc l = acc ++ flat_map f l.
Proof.
  revert acc. induction l as [|x l IH]; intros acc; simpl.
  - by rewrite app_nil_r.
  - by rewrite IH, <- app_assoc.
Qed.

Section Matching.

Import Conftest.FixtureParameterGroupingStage.

Lemma find_matching_groups_from (self : t) (vs : list scalar)
    (acc : list string) :
  foldl (fun matching_groups param_value =>
           foldl (fun matching_groups (kv : string * list string) =>
                    if any_identifier (snd kv) param_value
                    then matching_groups ++ [fst kv]
                    else matching_groups)
                 matching_groups (group_mappings self))
        acc vs
  = acc ++ flat_map (groups_named self) vs.
Proof.
  revert acc. induction vs as [|v vs IH]; intros acc; simpl.
  - by rewrite app_nil_r.
  - rewrite (foldl_append_map_filter (fun kv => any_identifier (snd kv) v) fst).
    by rewrite IH, <- app_assoc.
Qed.

Lemma find_matching_groups_eq (self : t) (test : Item) :
  _find_matching_groups self test
  = flat_map (groups_named self) (parameter_values_of test).
Proof. apply find_matching_groups_from. Qed.

Lemma any_identifier_spec (identifiers : list string) (v : scalar) :
  any_identifier identifiers v = true
  <-> exists identifier, identifier ∈ identifiers
        /\ is_substring (lower identifier) (lower (py_str v)).
Proof.
  unfold any_identifier. rewrite existsb_exists.
  split; intros (i & Hi & Hs); exists i.
  - by rewrite list_elem_of_In, <- str_contains_spec.
  - by rewrite <- list_elem_of_In, str_contains_spec.
Qed.

Lemma elem_of_find_matching_groups (self : t) (test : Item) (g : string) :
  g ∈ _find_matching_groups self test
  <-> exists ids v, (g, ids) ∈ group_mappings self
        /\ v ∈ parameter_values_of test
        /\ any_identifier ids v = true.
Proof.
  rewrite find_matching_groups_eq, list_elem_of_In, in_flat_map. split.
  - intros (v & Hv & Hg). unfold groups_named in Hg.
    apply in_map_iff in Hg as ([k ids] & <- & Hf).
    apply filter_In in Hf as [Hin Hany]. exists ids, v.
    by rewrite !list_elem_of_In.
  - intros (ids & v & Hin & Hv & Hany). exists v.
    split; [by apply list_elem_of_In|].
    unfold groups_named. apply in_map_iff. exists (g, ids). split; [done|].
    apply filter_In. split; [by apply list_elem_of_In|done].
Qed.

Lemma find_matching_groups_keys (self : t) (test : Item) (g : string) :
  g ∈ _find_matching_groups self test -> g ∈ map fst (group_mappings self).
Proof.
  rewrite elem_of_find_matching_groups. intros (ids & v & Hin & _).
  apply list_elem_of_In, in_map_iff. exists (g, ids).
  split; [done|by apply list_elem_of_In].
Qed.

End Matching.

Lemma spec_candidate_values_gathered (test : Item) (v : scalar) :
  v ∈ spec_candidate_values test ->
  v ∈ Conftest.FixtureParameterGroupingStage.parameter_values_of test.
Proof.
  unfold spec_candidate_values,
         Conftest.FixtureParameterGroupingStage.parameter_values_of.
  destruct (callspec test) as [cs|].
  - destruct (params cs) as [[d|l|]|], (funcargs test) as [f|];
      cbn [app]; rewrite ?elem_of_app; auto.
    all: by intros ?%elem_of_nil.
  - by destruct (funcargs test).
Qed.

(** C5: [_find_matching_groups] reports a group exactly when one of the
    group's identifiers, lower-cased, occurs in the lower-cased text of one
    of the values it gathers.  These are more than the candidate values of
    the specification: every candidate value is gathered, but so are the
    fixture values of a parametrized test.  For the test whose parameter is
    other and whose fixture value is quick, the only candidate value is
    other, no identifier of fast occurs in it, and fast is reported all the
    same.  The values quick_mode, quick_slow_combo and other give fast,
    fast and slow, and no group. *)
Theorem group_matched_without_candidate_value :
  (forall (self : Conftest.FixtureParameterGroupingStage.t) (test : Item)
          (g : string),
     g ∈ Conftest.FixtureParameterGroupingStage._find_matching_groups self test
     <-> exists ids identifier v,
           (g, ids) ∈ Conftest.FixtureParameterGroupingStage.group_mappings self
           /\ identifier ∈ ids
           /\ v ∈ Conftest.FixtureParameterGroupingStage.parameter_values_of test
           /\ is_substring (lower identifier) (lower (py_str v)))
  /\ (forall (self : Conftest.FixtureParameterGroupingStage.t) (test : Item)
             (g : string),
        (exists ids identifier v,
           (g, ids) ∈ Conftest.FixtureParameterGroupingStage.group_mappings self
           /\ identifier ∈ ids
           /\ v ∈ spec_candidate_values test
           /\ is_substring (lower identifier) (lower (py_str v))) ->
        g ∈ Conftest.FixtureParameterGroupingStage._find_matching_groups
              self test)
  /\ spec_candidate_values (heap_both 0%nat) = [SStr "other"]
  /\ "fast" ∈ Conftest.FixtureParameterGroupingStage._find_matching_groups
               fast_slow (heap_both 0%nat)
  /\ ~ (exists ids identifier v,
          ("fast", ids)
            ∈ Conftest.FixtureParameterGroupingStage.group_mappings fast_slow
          /\ identifier ∈ ids
          /\ v ∈ spec_candidate_values (heap_both 0%nat)
          /\ is_substring (lower identifier) (lower (py_str v)))
  /\ Conftest.FixtureParameterGroupingStage._find_matching_groups
       fast_slow (heap_params 0%nat) = ["fast"]
  /\ Conftest.FixtureParameterGroupingStage._find_matching_groups
       fast_slow (heap_params 1%nat) = ["fast"; "slow"]
  /\ Conftest.FixtureParameterGroupingStage._find_matching_groups
       fast_slow (heap_params 2%nat) = [].
Proof.
  assert (forall (self : Conftest.FixtureParameterGroupingStage.t)
                 (test : Item) (g : string),
            g ∈ Conftest.FixtureParameterGroupingStage._find_matching_groups
                  self test
            <-> exists ids identifier v,
                  (g, ids)
                    ∈ Conftest.FixtureParameterGroupingStage.group_mappings self
                  /\ identifier ∈ ids
                  /\ v ∈ Conftest.FixtureParameterGroupingStage.parameter_values_of
                          test
                  /\ is_substring (lower identifier) (lower (py_str v)))
    as Hrule.
  { intros self test g. rewrite elem_of_find_matching_groups. split.
    - intros (ids & v & Hin & Hv & Hany).
      apply any_identifier_spec in Hany as (i & Hi & Hs).
      by exists ids, i, v.
    - intros (ids & i & v & Hin & Hi & Hv & Hs).
      exists ids, v. repeat split; [done..|].
      apply any_identifier_spec. eauto. }
  split; [exact Hrule|]. split.
  { intros self test g (ids & i & v & Hin & Hi & Hv & Hs).
    apply Hrule. exists ids, i, v.
    repeat split; [done..| |done]. by apply spec_candidate_values_gathered. }
  split; [reflexivity|]. split.
  { apply list_elem_of_In. vm_compute. tauto. }
  split; [|by vm_compute].
  intros (ids & i & v & Hin & Hi & Hv & Hs).
  apply list_elem_of_In in Hin. cbn in Hin.
  destruct Hin as [Heq|[Heq|[]]]; [|discriminate Heq].
  injection Heq as <-.
  apply list_elem_of_In in Hi. cbn in Hi. destruct Hi as [<-|[]].
  apply list_elem_of_In in Hv. cbn in Hv. destruct Hv as [<-|[]].
  apply str_contains_spec in Hs. vm_compute in Hs. discriminate Hs.
Qed.

(** C7: the values of [funcargs] are gathered after those of
    [callspec.params] even when the parametrization is present.  A test
    whose only parameter is other and whose fixture value is quick is put in
    group fast. *)
Theorem funcargs_added_to_params :
  (forall (nm : string) (ms pms : list Mark) (d f : list (string * scalar)),
     Conftest.FixtureParameterGroupingStage.parameter_values_of
       {| name := nm; own_markers := ms; parent_markers := pms;
          callspec := Some {| params := Some (ParamsDict d) |};
          funcargs := Some f |}
     = map snd d ++ map snd f)
  /\ Conftest.FixtureParameterGroupingStage.parameter_values_of
       (heap_both 0%nat) = [SStr "other"; SStr "quick"]
  /\ Conftest.FixtureParameterGroupingStage._find_matching_groups
       fast_slow (heap_both 0%nat) = ["fast"].
Proof. split; [reflexivity|]. by vm_compute. Qed.

(** ** The loop of the grouping stage *)

Lemma lookup_foldl_insert_nil (keys : list string)
    (m : gmap string (list item_id)) (k : string) :
  foldl (fun groups group_name => <[group_name := []]> groups) m keys !! k
  = if decide (k ∈ keys) then Some [] else m !! k.
Proof.
  revert m. induction keys as [|a keys IH]; intros m.
  - cbn [foldl]. case_decide as Hin; [|done]. by apply elem_of_nil in Hin.
  - cbn [foldl]. rewrite IH.
    destruct (decide (k = a)) as [->|Hne].
    + rewrite lookup_insert_eq.
      destruct (decide (a ∈ keys)), (decide (a ∈ a :: keys)) as [|Hout];
        try done; exfalso; apply Hout; by left.
    + rewrite lookup_insert_ne by done.
      destruct (decide (k ∈ keys)) as [Hin|Hout],
               (decide (k ∈ a :: keys)) as [Hin'|Hout']; try done; exfalso.
      * apply Hout'. by right.
      * by apply elem_of_cons in Hin' as [?|?].
Qed.

Lemma lookup_empty_groups (keys : list string) (k : string) :
  empty_groups keys !! k = if decide (k ∈ keys) then Some [] else None.
Proof. unfold empty_groups. by rewrite lookup_foldl_insert_nil, lookup_empty. Qed.

Lemma mark_getattr_accepted (config : option MarkConfig) (nm : string) :
  accepted_marker_name config nm ->
  mark_getattr config nm
  = Ok {| mark_name := nm; args := []; kwargs := [] |}.
Proof.
  intros [Hvalid Hknown]. destruct nm as [|c nm]; [done|].
  unfold mark_getattr. cbn in Hvalid.
  destruct (Ascii.eqb_spec c "_"%char); [done|].
  destruct config as [cfg|]; [|done].
  case_bool_decide as Hreg; [done|].
  destruct Hknown as [?|(-> & Hmiss & ->)]; [done|].
  by rewrite bool_decide_false.
Qed.

Lemma same_params_refl (h : heap) : same_params h h.
Proof. by intros i. Qed.

Lemma same_params_trans (h1 h2 h3 : heap) :
  same_params h1 h2 -> same_params h2 h3 -> same_params h1 h3.
Proof.
  intros H12 H23 i. destruct (H12 i) as [-> ->]. apply H23.
Qed.

Lemma add_marker_same_params (h : heap) (test : item_id) (m : Mark) :
  same_params (add_marker h test m) h.
Proof.
  intros i. unfold add_marker.
  destruct (Nat.eqb_spec i test) as [->|]; done.
Qed.

Section Grouping.

Import Conftest.FixtureParameterGroupingStage.

Variable config : option MarkConfig.

Lemma find_matching_groups_same (self : t) (h1 h2 : heap) (i : item_id) :
  same_params h1 h2 ->
  _find_matching_groups self (h1 i) = _find_matching_groups self (h2 i).
Proof.
  intros H. rewrite !find_matching_groups_eq. f_equal.
  unfold parameter_values_of. by destruct (H i) as [-> ->].
Qed.

Lemma members_cons (self : t) (h : heap) (test : item_id)
    (tests : list item_id) (k : string) :
  members self h (test :: tests) k
  = replicate (count_occ string_dec (_find_matching_groups self (h test)) k)
              test
    ++ members self h tests k.
Proof. reflexivity. Qed.

Lemma filter_matches_nothing_cons (self : t) (h : heap) (test : item_id)
    (tests : list item_id) :
  List.filter (matches_nothing self h) (test :: tests)
  = match _find_matching_groups self (h test) with
    | [] => test :: List.filter (matches_nothing self h) tests
    | _ :: _ => List.filter (matches_nothing self h) tests
    end.
Proof.
  simpl. unfold matches_nothing at 1.
  by destruct (_find_matching_groups self (h test)).
Qed.

Lemma assign_loop (test : item_id) (gs : list string) (st : locals) :
  Forall (accepted_marker_name config) gs ->
  (forall g, g ∈ gs -> is_Some (groups st !! g)) ->
  exists st',
    for_each (assign config test) st gs = Ok st'
    /\ unmatched st' = unmatched st
    /\ same_params (store st') (store st)
    /\ forall k,
         groups st' !! k
         = (fun l => l ++ replicate (count_occ string_dec gs k) test)
             <$> (groups st !! k).
Proof.
  revert st. induction gs as [|g gs IH]; intros st Hvalid Hdom.
  - exists st. split; [done|]. split; [done|].
    split; [apply same_params_refl|].
    intros k. simpl. destruct (groups st !! k); simpl; [|done].
    by rewrite app_nil_r.
  - destruct (Hdom g) as [l Hl]; [by left|].
    apply Forall_cons in Hvalid as [Hg Hvalid].
    simpl. unfold assign at 1, groups_append. rewrite Hl. simpl.
    rewrite (mark_getattr_accepted config g Hg). simpl.
    destruct (IH {| groups := <[g := l ++ [test]]> (groups st);
                    unmatched := unmatched st;
                    store := add_marker (store st) test
                               {| mark_name := g; args := [];
                                  kwargs := [] |} |} Hvalid)
      as (st' & Hrun & Hun & Hsame & Hgroups).
    { intros g' Hg'. simpl. destruct (decide (g = g')) as [->|Hne].
      - rewrite lookup_insert_eq. eauto.
      - rewrite lookup_insert_ne by done. apply Hdom. by right. }
    exists st'. split; [done|]. split; [done|]. split.
    { eapply same_params_trans; [done|]. apply add_marker_same_params. }
    intros k. rewrite Hgroups. simpl.
    destruct (string_dec g k) as [->|Hne].
    + rewrite lookup_insert_eq, Hl. simpl. by rewrite <- app_assoc.
    + by rewrite lookup_insert_ne by done.
Qed.

Lemma step_loop (self : t) (h : heap) (tests : list item_id) (st : locals) :
  Forall (accepted_marker_name config) (map fst (group_mappings self)) ->
  (forall g, g ∈ map fst (group_mappings self) -> is_Some (groups st !! g)) ->
  same_params (store st) h ->
  exists st',
    for_each (step config self) st tests = Ok st'
    /\ unmatched st' = unmatched st ++ List.filter (matches_nothing self h) tests
    /\ same_params (store st') h
    /\ forall k,
         groups st' !! k
         = (fun l => l ++ members self h tests k) <$> (groups st !! k).
Proof.
  intros Hvalid. revert st.
  induction tests as [|test tests IH]; intros st Hdom Hsame.
  - exists st. simpl. rewrite app_nil_r.
    split; [done|]. split; [done|]. split; [done|].
    intros k. destruct (groups st !! k); simpl; [|done].
    by rewrite app_nil_r.
  - cbn [for_each]. unfold step at 1.
    rewrite (find_matching_groups_same self _ _ test Hsame).
    rewrite filter_matches_nothing_cons.
    destruct (_find_matching_groups self (h test)) as [|g gs] eqn:E.
    + cbn [bind].
      destruct (IH {| groups := groups st;
                      unmatched := unmatched st ++ [test];
                      store := store st |} Hdom Hsame)
        as (st' & Hrun & Hun & Hsame' & Hgroups).
      exists st'. split; [done|]. split.
      { rewrite Hun. cbn [unmatched]. by rewrite <- app_assoc. }
      split; [done|]. intros k. rewrite Hgroups. cbn [groups].
      by rewrite members_cons, E.
    + destruct (assign_loop test (g :: gs) st)
        as (st1 & Hrun1 & Hun1 & Hsame1 & Hgroups1).
      { apply Forall_forall. intros g' Hg'.
        rewrite Forall_forall in Hvalid. apply Hvalid.
        apply (find_matching_groups_keys self (h test)). by rewrite E. }
      { intros g' Hg'. apply Hdom.
        apply (find_matching_groups_keys self (h test)). by rewrite E. }
      rewrite Hrun1. cbn [bind].
      destruct (IH st1) as (st' & Hrun & Hun & Hsame' & Hgroups).
      { intros g' Hg'. rewrite Hgroups1.
        destruct (Hdom g' Hg') as [l ->]. simpl. eauto. }
      { by eapply same_params_trans. }
      exists st'. split; [done|]. split; [by rewrite Hun, Hun1|].
      split; [done|]. intros k. rewrite Hgroups, Hgroups1.
      rewrite members_cons, E.
      destruct (groups st !! k); simpl; [|done].
      by rewrite <- app_assoc.
Qed.

(** What [apply] has built when its loop ends. *)
Lemma grouping_result_built (self : t) (h : heap) (tests : list item_id) :
  Forall (accepted_marker_name config) (map fst (group_mappings self)) ->
  exists r,
    grouping_result config self h tests = Ok r
    /\ FixtureParameterGroups.unmatched r
       = List.filter (matches_nothing self h) tests
    /\ forall k,
         FixtureParameterGroups.groups r !! k
         = if decide (k ∈ map fst (group_mappings self))
           then Some (members self h tests k) else None.
Proof.
  intros Hvalid. unfold grouping_result, run.
  destruct (step_loop self h tests
              {| groups := empty_groups (map fst (group_mappings self));
                 unmatched := []; store := h |} Hvalid)
    as (st' & Hrun & Hun & _ & Hgroups); [|apply same_params_refl|].
  { intros g Hg. simpl. rewrite lookup_empty_groups.
    rewrite decide_True by done. eauto. }
  rewrite Hrun. simpl. eexists. split; [done|]. split; [done|].
  intros k. simpl. rewrite Hgroups. simpl. rewrite lookup_empty_groups.
  by destruct (decide (k ∈ map fst (group_mappings self))).
Qed.

End Grouping.

(** ** Membership in the groups *)

Section Membership.

Import Conftest.FixtureParameterGroupingStage.

Lemma elem_of_members (self : t) (h : heap) (tests : list item_id)
    (k : string) (test : item_id) :
  test ∈ members self h tests k
  <-> test ∈ tests /\ k ∈ _find_matching_groups self (h test).
Proof.
  unfold members. rewrite list_elem_of_In, in_flat_map. split.
  - intros (x & Hx & Hrep).
    apply list_elem_of_In, elem_of_replicate in Hrep as [-> Hn].
    split; [by apply list_elem_of_In|].
    apply list_elem_of_In, (count_occ_In string_dec). lia.
  - intros [Hin Hk]. exists test. split; [by apply list_elem_of_In|].
    apply list_elem_of_In, elem_of_replicate. split; [done|].
    apply list_elem_of_In, (count_occ_In string_dec) in Hk. lia.
Qed.

End Membership.

(** Discharges the acceptance of literal group names in a literal session. *)
Ltac accept_name :=
  unfold accepted_marker_name, default_session; cbn;
  split;
  [ discriminate
  | first
      [ exact I
      | right; split;
        [ reflexivity
        | split;
          [ let H := fresh in
            intros H; apply list_elem_of_In in H; simpl in H;
            intuition discriminate
          | reflexivity ] ] ] ].

Ltac accept_names :=
  unfold fast_slow, ConftestHook.hook_stage;
  cbn [map fst Conftest.FixtureParameterGroupingStage.group_mappings];
  repeat (apply List.Forall_cons; [accept_name|]);
  apply List.Forall_nil.

(** C3: in [conftest.py] the grouping stage hands back the list of tests it
    was given (with the markers added in the store), not the aggregate of
    groups and unmatched tests that its loop has built. *)
Theorem grouping_apply_returns_tests (config : option MarkConfig)
    (self : Conftest.FixtureParameterGroupingStage.t) (h : heap)
    (tests : list item_id) :
  Forall (accepted_marker_name config)
    (map fst (Conftest.FixtureParameterGroupingStage.group_mappings self)) ->
  exists h',
    Conftest.FixtureParameterGroupingStage.apply config self h tests
    = Ok (tests, h')
    /\ same_params h' h.
Proof.
  intros Hvalid.
  unfold Conftest.FixtureParameterGroupingStage.apply,
         Conftest.FixtureParameterGroupingStage.run.
  destruct (step_loop config self h tests
              {| Conftest.FixtureParameterGroupingStage.groups :=
                   empty_groups
                     (map fst
                        (Conftest.FixtureParameterGroupingStage.group_mappings
                           self));
                 Conftest.FixtureParameterGroupingStage.unmatched := [];
                 Conftest.FixtureParameterGroupingStage.store := h |} Hvalid)
    as (st' & Hrun & _ & Hsame & _); [|apply same_params_refl|].
  { intros g Hg. simpl. rewrite lookup_empty_groups.
    rewrite decide_True by done. eauto. }
  rewrite Hrun. simpl. eauto.
Qed.

Lemma grouping_apply_returns_tests_witness :
  exists h',
    Conftest.FixtureParameterGroupingStage.apply default_session fast_slow
      heap_params [0%nat; 1%nat; 2%nat] = Ok ([0%nat; 1%nat; 2%nat], h')
    /\ same_params h' heap_params.
Proof.
  apply (grouping_apply_returns_tests default_session fast_slow heap_params
           [0%nat; 1%nat; 2%nat]).
  accept_names.
Defined.

(** The stage of [Pipeline.py] does return the aggregate; it files a test
    under a group only when the named fixture's value equals an identifier. *)
Lemma pipeline_py_grouping_returns_groups :
  exists r,
    PipelinePy.FixtureParameterGroupingStage.apply
      sleep_time_groups heap_exact [0%nat; 1%nat] = Ok r
    /\ FixtureParameterGroups.get_group r "fast" = [0%nat]
    /\ FixtureParameterGroups.get_group r "slow" = []
    /\ FixtureParameterGroups.unmatched r = [1%nat].
Proof. eexists. split; [vm_compute; reflexivity|]. by vm_compute. Qed.

(** The half of the invariant that the loop keeps, for every input list:
    a test is unmatched or in some group, never both. *)
Lemma grouping_partition (config : option MarkConfig)
    (self : Conftest.FixtureParameterGroupingStage.t) (h : heap)
    (tests : list item_id) (r : FixtureParameterGroups.t) :
  Forall (accepted_marker_name config)
    (map fst (Conftest.FixtureParameterGroupingStage.group_mappings self)) ->
  Conftest.FixtureParameterGroupingStage.grouping_result config self h tests
  = Ok r ->
  forall t, t ∈ tests ->
    (t ∈ FixtureParameterGroups.unmatched r /\ ~ in_some_group r t)
    \/ ((t ∉ FixtureParameterGroups.unmatched r) /\ in_some_group r t).
Proof.
  intros Hvalid Hr.
  destruct (grouping_result_built config self h tests Hvalid)
    as (r' & Hr' & Hun & Hgroups).
  rewrite Hr in Hr'. injection Hr' as <-.
  intros t Ht. rewrite Hun, elem_of_bool_filter. unfold matches_nothing.
  destruct (Conftest.FixtureParameterGroupingStage._find_matching_groups
              self (h t)) as [|g gs] eqn:E.
  - left. split; [done|]. intros (k & l & Hl & Hin).
    rewrite Hgroups in Hl. case_decide; [|done]. injection Hl as <-.
    apply elem_of_members in Hin as [_ Hk]. rewrite E in Hk.
    by apply elem_of_nil in Hk.
  - right. split; [by intros [_ ?]|].
    assert (g ∈ Conftest.FixtureParameterGroupingStage._find_matching_groups
                  self (h t)) as Hg by (rewrite E; by left).
    exists g, (members self h tests g). split.
    + rewrite Hgroups, decide_True; [done|].
      by eapply find_matching_groups_keys.
    + by apply elem_of_members.
Qed.

(** C4: a test with two resolved parameters that both name the group fast
    is reported twice for fast by [_find_matching_groups] and so is filed
    twice in the list of fast, in every session that accepts the two group
    names as marker names; the invariant of the grouping result is broken in
    its second half.  Its first half (unmatched or grouped, never both)
    holds for this input, as for every other. *)
Theorem test_filed_twice_under_one_group (config : option MarkConfig) :
  Forall (accepted_marker_name config)
    (map fst (Conftest.FixtureParameterGroupingStage.group_mappings fast_slow)) ->
  Conftest.FixtureParameterGroupingStage._find_matching_groups
    fast_slow (heap_twice 0%nat) = ["fast"; "fast"]
  /\ exists r,
       Conftest.FixtureParameterGroupingStage.grouping_result
         config fast_slow heap_twice [0%nat] = Ok r
       /\ FixtureParameterGroups.get_group r "fast" = [0%nat; 0%nat]
       /\ FixtureParameterGroups.unmatched r = []
       /\ ~ grouping_invariant [0%nat] r.
Proof.
  intros Hvalid. split; [by vm_compute|].
  destruct (grouping_result_built config fast_slow heap_twice [0%nat] Hvalid)
    as (r & Hr & Hun & Hgroups).
  assert (FixtureParameterGroups.groups r !! "fast" = Some [0%nat; 0%nat])
    as Hfast.
  { rewrite Hgroups. by vm_compute. }
  exists r. split; [done|]. split.
  { unfold FixtureParameterGroups.get_group. by rewrite Hfast. }
  split; [by rewrite Hun|].
  intros [_ Hdup].
  specialize (Hdup "fast" [0%nat; 0%nat] 0%nat Hfast).
  discriminate Hdup. by left.
Qed.

Lemma test_filed_twice_under_one_group_witness :
  Conftest.FixtureParameterGroupingStage._find_matching_groups
    fast_slow (heap_twice 0%nat) = ["fast"; "fast"]
  /\ exists r,
       Conftest.FixtureParameterGroupingStage.grouping_result
         default_session fast_slow heap_twice [0%nat] = Ok r
       /\ FixtureParameterGroups.get_group r "fast" = [0%nat; 0%nat]
       /\ FixtureParameterGroups.unmatched r = []
       /\ ~ grouping_invariant [0%nat] r.
Proof.
  apply (test_filed_twice_under_one_group default_session).
  accept_names.
Defined.

(** C6: in [conftest.py] a pipeline without stages, fresh or just cleared,
    raises [AttributeError] from [apply], which calls the method
    [_build_stages_from_config] that the class does not define.  The
    pipeline of [Pipeline.py] returns its input there. *)
Theorem empty_pipeline_raises_attribute_error :
  (forall config now h tests,
     Conftest.TestFilterPipeline.apply config now
       (Conftest.TestFilterPipeline.init None) h tests = Raise AttributeError)
  /\ (forall config now p h tests,
        Conftest.TestFilterPipeline.apply config now
          (Conftest.TestFilterPipeline.clear p) h tests = Raise AttributeError)
  /\ (forall now h tests,
        PipelinePy.TestFilterPipeline.apply now
          (PipelinePy.TestFilterPipeline.init None) h tests
        = Ok (PipelinePy.Tests tests))
  /\ (forall now p h tests,
        PipelinePy.TestFilterPipeline.apply now
          (PipelinePy.TestFilterPipeline.clear p) h tests
        = Ok (PipelinePy.Tests tests)).
Proof. repeat split. Qed.

(** C10: [get_group] never raises: for a name among the keys of [groups] it
    returns the list stored under it, for any other name the empty list. *)
Theorem get_group_configured_or_empty (r : FixtureParameterGroups.t)
    (group_name : string) :
  (group_name ∈ dom (FixtureParameterGroups.groups r)
   /\ FixtureParameterGroups.groups r !! group_name
      = Some (FixtureParameterGroups.get_group r group_name))
  \/ ((group_name ∉ dom (FixtureParameterGroups.groups r))
      /\ FixtureParameterGroups.get_group r group_name = []).
Proof.
  unfold FixtureParameterGroups.get_group.
  destruct (FixtureParameterGroups.groups r !! group_name) as [l|] eqn:E.
  - left. split; [|done]. apply elem_of_dom. eauto.
  - right. split; [|done]. by apply not_elem_of_dom.
Qed.


(** * Further properties of the code *)

(** ** Pipelines *)

Lemma for_each_app {S A : Type} (body : S -> A -> result S) (s : S)
    (l1 l2 : list A) :
  for_each body s (l1 ++ l2)
  = (s' <- for_each body s l1 ;; for_each body s' l2).
Proof.
  revert s. induction l1 as [|x l1 IH]; intros s; [done|].
  cbn [for_each app]. destruct (body s x) as [s1|e]; [|done].
  cbn [bind]. apply IH.
Qed.

Lemma py_apply_add_stage (now : datetime)
    (p : PipelinePy.TestFilterPipeline.t) (s : PipelinePy.stage) (h : heap)
    (tests : list item_id) :
  PipelinePy.TestFilterPipeline.apply now
    (PipelinePy.TestFilterPipeline.add_stage p s) h tests
  = (v <- PipelinePy.TestFilterPipeline.apply now p h tests ;;
     PipelinePy.stage_apply now h s v).
Proof.
  unfold PipelinePy.TestFilterPipeline.apply,
         PipelinePy.TestFilterPipeline.add_stage.
  cbn [PipelinePy.TestFilterPipeline._stages]. rewrite for_each_app.
  destruct (for_each _ _ (PipelinePy.TestFilterPipeline._stages p)) as [v|e];
    [|done].
  cbn [bind for_each]. by destruct (PipelinePy.stage_apply now h s v).
Qed.

(** X1: in [Pipeline.py] a stage added with [add_stage] runs last: applying
    the extended pipeline is applying the old one and handing its result to
    the new stage, an exception of the old pipeline being passed on. *)
Theorem pipeline_py_added_stage_runs_last (now : datetime)
    (p : PipelinePy.TestFilterPipeline.t) (s : PipelinePy.stage) (h : heap)
    (tests : list item_id) :
  PipelinePy.TestFilterPipeline.apply now
    (PipelinePy.TestFilterPipeline.add_stage p s) h tests
  = (v <- PipelinePy.TestFilterPipeline.apply now p h tests ;;
     PipelinePy.stage_apply now h s v).
Proof. apply py_apply_add_stage. Qed.

(** X2: in [Pipeline.py] neither of the two stages of the file can follow
    a grouping stage: a pipeline of date filter and grouping stages in which
    some stage comes after a grouping stage raises, wherever in the pipeline
    that is and whatever the input. *)
Theorem pipeline_py_grouping_must_be_last (now : datetime)
    (stages1 stages2 : list PipelinePy.stage)
    (g : PipelinePy.FixtureParameterGroupingStage.t) (s : PipelinePy.stage)
    (h : heap) (tests : list item_id) :
  exists e,
    PipelinePy.TestFilterPipeline.apply now
      {| PipelinePy.TestFilterPipeline._stages :=
           stages1 ++ PipelinePy.FixtureParameterGrouping g :: s :: stages2 |}
      h tests
    = Raise e.
Proof.
  unfold PipelinePy.TestFilterPipeline.apply.
  cbn [PipelinePy.TestFilterPipeline._stages]. rewrite for_each_app.
  destruct (for_each _ _ stages1) as [[l|r]|e];
    cbn [bind for_each PipelinePy.stage_apply]; [|eauto..].
  destruct (PipelinePy.FixtureParameterGroupingStage.apply g h l) as [r|e];
    cbn [bind for_each PipelinePy.stage_apply]; eauto.
Qed.

(** X3: in [conftest.py] a pipeline to which a stage was added runs the
    stages it already had, in order, from the input, and the added stage on
    their result; it does not look for [_build_stages_from_config]. *)
Theorem conftest_added_stage_runs_last (config : option MarkConfig)
    (now : datetime)
    (p : Conftest.TestFilterPipeline.t) (s : Conftest.stage) (h : heap)
    (tests : list item_id) :
  Conftest.TestFilterPipeline.apply config now
    (Conftest.TestFilterPipeline.add_stage p s) h tests
  = (r <- for_each (fun r st => Conftest.stage_apply config now st r)
                   (tests, h) (Conftest.TestFilterPipeline._stages p) ;;
     Conftest.stage_apply config now s r).
Proof.
  unfold Conftest.TestFilterPipeline.apply,
         Conftest.TestFilterPipeline.add_stage.
  cbn [Conftest.TestFilterPipeline._stages].
  destruct (Conftest.TestFilterPipeline._stages p ++ [s]) as [|s0 l] eqn:E.
  { by destruct (Conftest.TestFilterPipeline._stages p). }
  rewrite <- E. cbn [bind]. rewrite for_each_app.
  destruct (for_each _ _ (Conftest.TestFilterPipeline._stages p)) as [v|e];
    [|done].
  cbn [bind for_each]. by destruct (Conftest.stage_apply config now s v).
Qed.

(** ** More on [DateFilterStage] *)

Lemma bool_filter_app {A : Type} (p : A -> bool) (l1 l2 : list A) :
  List.filter p (l1 ++ l2) = List.filter p l1 ++ List.filter p l2.
Proof. apply List.filter_app. Qed.

Lemma bool_filter_idempotent {A : Type} (p : A -> bool) (l : list A) :
  List.filter p (List.filter p l) = List.filter p l.
Proof.
  induction l as [|x l IH]; [done|]. cbn [List.filter].
  destruct (p x) eqn:E; [|done]. cbn [List.filter]. by rewrite E, IH.
Qed.

(** X4: filtering twice on the same day changes nothing more: the tests kept
    by [DateFilterStage.apply] are all kept when it is applied again. *)
Theorem date_filter_idempotent (now : datetime) (self : DateFilterStage.t)
    (h : heap) (tests : list item_id) :
  DateFilterStage.apply now self h (DateFilterStage.apply now self h tests)
  = DateFilterStage.apply now self h tests.
Proof. rewrite !apply_eq_filter. apply bool_filter_idempotent. Qed.

(** X5: [DateFilterStage.apply] decides every test on its own: the result
    for a concatenated list is the concatenation of the results. *)
Theorem date_filter_app (now : datetime) (self : DateFilterStage.t)
    (h : heap) (tests1 tests2 : list item_id) :
  DateFilterStage.apply now self h (tests1 ++ tests2)
  = DateFilterStage.apply now self h tests1
    ++ DateFilterStage.apply now self h tests2.
Proof. rewrite !apply_eq_filter. apply bool_filter_app. Qed.

Lemma ascii_lower_idempotent (c : ascii) :
  ascii_lower (ascii_lower c) = ascii_lower c.
Proof.
  destruct c as [[] [] [] [] [] [] [] []]; reflexivity.
Qed.

Lemma lower_idempotent (s : string) : lower (lower s) = lower s.
Proof.
  induction s as [|c s IH]; [done|].
  cbn [lower]. by rewrite ascii_lower_idempotent, IH.
Qed.

Section Tokens.

Import DateFilterStage.

Lemma add_token_lower (allowed_days : gset Z) (s : string) :
  add_token allowed_days (PyScalar (SStr (lower s)))
  = add_token allowed_days (PyScalar (SStr s)).
Proof. unfold add_token. by rewrite lower_idempotent. Qed.

Lemma foldl_add_token_lower (tokens : list string) (acc : gset Z) :
  foldl add_token acc (map (fun s => PyScalar (SStr (lower s))) tokens)
  = foldl add_token acc (map (fun s => PyScalar (SStr s)) tokens).
Proof.
  revert acc. induction tokens as [|s tokens IH]; intros acc; [done|].
  cbn [map foldl]. by rewrite add_token_lower, IH.
Qed.

Lemma weekday_map_range (s : string) (d : Z) :
  WEEKDAY_MAP !! s = Some d -> 0 <= d <= 6.
Proof.
  assert (map_Forall (fun _ d => 0 <= d <= 6) WEEKDAY_MAP) as Hall.
  { apply (bool_decide_unpack _). by vm_compute. }
  apply (Hall s d).
Qed.

Lemma add_token_range (acc : gset Z) (tok : pyobj) :
  (forall d, d ∈ acc -> 0 <= d <= 6) ->
  forall d, d ∈ add_token acc tok -> 0 <= d <= 6.
Proof.
  intros Hacc d. unfold add_token.
  destruct tok as [[s| | |]| |]; try apply Hacc.
  destruct (String.eqb (lower s) "weekend").
  - unfold WEEKEND_DAYS. rewrite !elem_of_union, !elem_of_singleton.
    intros [?|[->| ->]]; [by apply Hacc|lia..].
  - destruct (WEEKDAY_MAP !! lower s) as [d'|] eqn:E; [|apply Hacc].
    rewrite elem_of_union, elem_of_singleton.
    intros [?| ->]; [by apply Hacc|]. by eapply weekday_map_range.
Qed.

Lemma foldl_add_token_range (l : list pyobj) (acc : gset Z) :
  (forall d, d ∈ acc -> 0 <= d <= 6) ->
  forall d, d ∈ foldl add_token acc l -> 0 <= d <= 6.
Proof.
  revert acc. induction l as [|tok l IH]; intros acc Hacc; [done|].
  cbn [foldl]. apply IH. by apply add_token_range.
Qed.

Lemma add_kwarg_range (acc : gset Z) (kv : string * pyobj) :
  (forall d, d ∈ acc -> 0 <= d <= 6) ->
  forall d, d ∈ add_kwarg acc kv -> 0 <= d <= 6.
Proof.
  intros Hacc. unfold add_kwarg.
  destruct (String.eqb (lower (fst kv)) "days"); [|done].
  destruct (snd kv); [done|by apply foldl_add_token_range..].
Qed.

Lemma foldl_add_kwarg_range (l : list (string * pyobj)) (acc : gset Z) :
  (forall d, d ∈ acc -> 0 <= d <= 6) ->
  forall d, d ∈ foldl add_kwarg acc l -> 0 <= d <= 6.
Proof.
  revert acc. induction l as [|kv l IH]; intros acc Hacc; [done|].
  cbn [foldl]. apply IH. by apply add_kwarg_range.
Qed.

End Tokens.

(** X6: day names are matched without regard to letter case: a marker and
    the marker with every token lower-cased allow the same days. *)
Theorem run_days_tokens_case_insensitive (tokens : list string) :
  DateFilterStage.allowed_days_of (run_days (map lower tokens))
  = DateFilterStage.allowed_days_of (run_days tokens).
Proof.
  unfold DateFilterStage.allowed_days_of, run_days. cbn [args kwargs foldl].
  rewrite map_map. apply foldl_add_token_lower.
Qed.

(** X7: whatever a [run_days] marker carries, the days it allows are indices
    between 0 and 6. *)
Theorem allowed_days_in_week (m : Mark) (d : Z) :
  d ∈ DateFilterStage.allowed_days_of m -> 0 <= d <= 6.
Proof.
  unfold DateFilterStage.allowed_days_of.
  apply foldl_add_kwarg_range, foldl_add_token_range.
  intros d' Hd'. by apply elem_of_empty in Hd'.
Qed.

Lemma allowed_days_in_week_witness :
  5 ∈ DateFilterStage.allowed_days_of (run_days ["weekend"]) /\ 0 <= 5 <= 6.
Proof.
  assert (5 ∈ DateFilterStage.allowed_days_of (run_days ["weekend"])) as H.
  { apply (bool_decide_unpack _). by vm_compute. }
  split; [exact H|].
  exact (allowed_days_in_week (run_days ["weekend"]) 5 H).
Defined.

Section TokenSets.

Import DateFilterStage.

Lemma add_token_union (acc : gset Z) (tok : pyobj) :
  add_token acc tok = acc ∪ add_token ∅ tok.
Proof.
  unfold add_token. destruct tok as [[s| | |]| |]; try by rewrite union_empty_r_L.
  destruct (String.eqb (lower s) "weekend"); [by rewrite union_empty_l_L|].
  destruct (WEEKDAY_MAP !! lower s);
    [by rewrite union_empty_l_L|by rewrite union_empty_r_L].
Qed.

Lemma add_token_swap (acc : gset Z) (x y : pyobj) :
  add_token (add_token acc x) y = add_token (add_token acc y) x.
Proof.
  rewrite (add_token_union (add_token acc x)), (add_token_union acc x).
  rewrite (add_token_union (add_token acc y)), (add_token_union acc y).
  rewrite <- !(assoc_L (∪)). f_equal. apply (comm_L (∪)).
Qed.

Lemma foldl_add_token_permutation (l1 l2 : list pyobj) :
  l1 ≡ₚ l2 -> forall acc, foldl add_token acc l1 = foldl add_token acc l2.
Proof.
  induction 1 as [|x l1 l2 _ IH|x y l|l1 l2 l3 _ IH1 _ IH2]; intros acc.
  - done.
  - cbn [foldl]. apply IH.
  - cbn [foldl]. by rewrite add_token_swap.
  - by rewrite IH1.
Qed.

End TokenSets.



(** X9: the order of the positional tokens of a marker is irrelevant: two
    markers whose tokens are permutations of each other allow the same days. *)
Theorem run_days_order_irrelevant (nm : string) (l1 l2 : list pyobj)
    (kw : list (string * pyobj)) :
  l1 ≡ₚ l2 ->
  DateFilterStage.allowed_days_of {| mark_name := nm; args := l1; kwargs := kw |}
  = DateFilterStage.allowed_days_of
      {| mark_name := nm; args := l2; kwargs := kw |}.
Proof.
  intros Hperm. unfold DateFilterStage.allowed_days_of. cbn [args kwargs].
  by rewrite (foldl_add_token_permutation l1 l2 Hperm).
Qed.

Lemma run_days_order_irrelevant_witness :
  DateFilterStage.allowed_days_of
    {| mark_name := "run_days";
       args := [PyScalar (SStr "mon"); PyScalar (SStr "weekend")];
       kwargs := [] |}
  = DateFilterStage.allowed_days_of
      {| mark_name := "run_days";
         args := [PyScalar (SStr "weekend"); PyScalar (SStr "mon")];
         kwargs := [] |}.
Proof.
  apply (run_days_order_irrelevant "run_days"
           [PyScalar (SStr "mon"); PyScalar (SStr "weekend")]
           [PyScalar (SStr "weekend"); PyScalar (SStr "mon")] []).
  apply perm_swap.
Defined.

(** ** More on the grouping stage of [conftest.py] *)

Section MoreMatching.

Import Conftest.FixtureParameterGroupingStage.

Lemma any_identifier_lower (ids : list string) (v : scalar) :
  any_identifier (map lower ids) v = any_identifier ids v.
Proof.
  unfold any_identifier. induction ids as [|i ids IH]; [done|].
  cbn [map existsb]. by rewrite lower_idempotent, IH.
Qed.

Lemma groups_named_lower (self : t) (v : scalar) :
  groups_named (lower_identifiers self) v = groups_named self v.
Proof.
  unfold groups_named, lower_identifiers. cbn [group_mappings].
  induction (group_mappings self) as [|[k ids] m IH]; [done|].
  cbn [map List.filter fst snd]. rewrite any_identifier_lower.
  destruct (any_identifier ids v); cbn [map fst]; by rewrite IH.
Qed.

Lemma is_substring_empty (s : string) : is_substring "" s.
Proof. by exists "", s. Qed.

End MoreMatching.

(** X10: the letter case of the identifiers does not matter: a stage and the
    stage with all its identifiers lower-cased find the same groups, in the
    same order, for every test. *)
Theorem identifiers_case_insensitive
    (self : Conftest.FixtureParameterGroupingStage.t) (test : Item) :
  Conftest.FixtureParameterGroupingStage._find_matching_groups
    (lower_identifiers self) test
  = Conftest.FixtureParameterGroupingStage._find_matching_groups self test.
Proof.
  rewrite !find_matching_groups_eq.
  induction (Conftest.FixtureParameterGroupingStage.parameter_values_of test)
    as [|v vs IH]; [done|].
  cbn [flat_map]. by rewrite groups_named_lower, IH.
Qed.

(** X11: an empty identifier matches everything: a group that lists the
    empty string is found for every test that has at least one value. *)
Theorem empty_identifier_matches_all
    (self : Conftest.FixtureParameterGroupingStage.t) (test : Item)
    (k : string) (ids : list string) (v : scalar) :
  (k, ids) ∈ Conftest.FixtureParameterGroupingStage.group_mappings self ->
  "" ∈ ids ->
  v ∈ Conftest.FixtureParameterGroupingStage.parameter_values_of test ->
  k ∈ Conftest.FixtureParameterGroupingStage._find_matching_groups self test.
Proof.
  intros Hk Hempty Hv. apply elem_of_find_matching_groups.
  exists ids, v. split; [done|]. split; [done|].
  apply any_identifier_spec. exists "". split; [done|].
  apply is_substring_empty.
Qed.

Lemma empty_identifier_matches_all_witness :
  "any" ∈ Conftest.FixtureParameterGroupingStage._find_matching_groups
            {| Conftest.FixtureParameterGroupingStage.group_mappings :=
                 [ ("any", [""]) ] |}
            (heap_params 2%nat).
Proof.
  apply (empty_identifier_matches_all _ _ "any" [""] (SStr "other")).
  - apply list_elem_of_In. simpl. tauto.
  - apply list_elem_of_In. simpl. tauto.
  - apply list_elem_of_In. simpl. tauto.
Defined.

(** ** The markers the grouping stage adds *)

Lemma with_markers_nil (it : Item) : with_markers it [] = it.
Proof. destruct it. unfold with_markers. cbn. by rewrite app_nil_r. Qed.

Lemma with_markers_app (it : Item) (ms1 ms2 : list Mark) :
  with_markers (with_markers it ms1) ms2 = with_markers it (ms1 ++ ms2).
Proof. unfold with_markers. cbn. by rewrite <- app_assoc. Qed.

Lemma add_marker_at (h : heap) (test : item_id) (m : Mark) :
  add_marker h test m test = with_markers (h test) [m].
Proof. unfold add_marker. by rewrite Nat.eqb_refl. Qed.

Lemma add_marker_other (h : heap) (test i : item_id) (m : Mark) :
  i <> test -> add_marker h test m i = h i.
Proof.
  intros Hne. unfold add_marker.
  by destruct (Nat.eqb_spec i test).
Qed.

Lemma mark_getattr_ok (config : option MarkConfig) (nm : string) (m : Mark) :
  mark_getattr config nm = Ok m -> m = group_mark nm.
Proof.
  destruct nm as [|c nm]; [done|]. unfold mark_getattr.
  destruct (Ascii.eqb c "_"%char); [done|].
  destruct config as [cfg|]; [|by intros [= <-]].
  destruct (bool_decide (String c nm ∈ markers cfg)); [by intros [= <-]|].
  destruct (strict_markers cfg); [done|].
  destruct (bool_decide (String c nm ∈ misspelt_parametrize)); [done|].
  destruct (warnings_as_errors cfg); [done|]. by intros [= <-].
Qed.

Lemma find_app {A : Type} (f : A -> bool) (l1 l2 : list A) :
  List.find f (l1 ++ l2)
  = match List.find f l1 with
    | Some x => Some x
    | None => List.find f l2
    end.
Proof.
  induction l1 as [|x l1 IH]; [done|]. cbn [app List.find].
  by destruct (f x).
Qed.

Lemma find_none_forall {A : Type} (f : A -> bool) (l : list A) :
  Forall (fun x => f x = false) l -> List.find f l = None.
Proof.
  induction 1 as [|x l Hx _ IH]; [done|]. cbn [List.find]. by rewrite Hx.
Qed.

Section Markers.

Import Conftest.FixtureParameterGroupingStage.

Variable config : option MarkConfig.

Lemma assign_store (test : item_id) (gs : list string) (st st' : locals) :
  for_each (assign config test) st gs = Ok st' ->
  forall i,
    store st' i
    = if Nat.eqb i test
      then with_markers (store st test) (map group_mark gs)
      else store st i.
Proof.
  revert st. induction gs as [|g gs IH]; intros st Hrun i.
  - injection Hrun as <-. cbn [map].
    destruct (Nat.eqb_spec i test) as [->|]; [|done].
    by rewrite with_markers_nil.
  - cbn [for_each] in Hrun. unfold assign at 1 in Hrun.
    destruct (groups_append (groups st) g test) as [groups'|]; [|done].
    cbn [bind] in Hrun.
    destruct (mark_getattr config g) as [m|] eqn:Hm; [|done].
    apply mark_getattr_ok in Hm as ->. cbn [bind] in Hrun.
    rewrite (IH _ Hrun i). cbn [store map].
    destruct (Nat.eqb_spec i test) as [->|Hne].
    + by rewrite add_marker_at, with_markers_app.
    + by apply add_marker_other.
Qed.

Lemma marks_for_cons (self : t) (h : heap) (test : item_id)
    (tests : list item_id) (i : item_id) :
  marks_for self h (test :: tests) i
  = (if Nat.eqb test i
     then map group_mark (_find_matching_groups self (h test))
     else [])
    ++ marks_for self h tests i.
Proof. reflexivity. Qed.

Lemma step_store (self : t) (h : heap) (tests : list item_id)
    (st st' : locals) :
  same_params (store st) h ->
  for_each (step config self) st tests = Ok st' ->
  forall i, store st' i = with_markers (store st i) (marks_for self h tests i).
Proof.
  revert st. induction tests as [|test tests IH]; intros st Hsame Hrun i.
  - injection Hrun as <-. by rewrite with_markers_nil.
  - cbn [for_each] in Hrun. unfold step at 1 in Hrun.
    rewrite (find_matching_groups_same self _ _ test Hsame) in Hrun.
    rewrite marks_for_cons.
    destruct (_find_matching_groups self (h test)) as [|g gs] eqn:E.
    + cbn [bind] in Hrun.
      rewrite (IH {| groups := groups st;
                     unmatched := unmatched st ++ [test];
                     store := store st |} Hsame Hrun i).
      cbn [store map]. by destruct (Nat.eqb test i).
    + destruct (for_each (assign config test) st (g :: gs)) as [st1|] eqn:Hassign;
        [|done].
      cbn [bind] in Hrun.
      pose proof (assign_store test (g :: gs) st st1 Hassign) as Hst1.
      assert (same_params (store st1) h) as Hsame1.
      { intros j. rewrite Hst1.
        destruct (Nat.eqb_spec j test) as [->|]; [|apply Hsame].
        unfold with_markers. cbn. apply Hsame. }
      rewrite (IH st1 Hsame1 Hrun i), Hst1.
      rewrite (Nat.eqb_sym test i).
      destruct (Nat.eqb_spec i test) as [->|Hne].
      * by rewrite with_markers_app.
      * done.
Qed.

Lemma marks_for_absent (self : t) (h : heap) (tests : list item_id)
    (i : item_id) :
  i ∉ tests -> marks_for self h tests i = [].
Proof.
  induction tests as [|test tests IH]; intros Hi; [done|].
  rewrite marks_for_cons, IH.
  - destruct (Nat.eqb_spec test i) as [->|]; [|done].
    exfalso. apply Hi. by left.
  - intros ?. apply Hi. by right.
Qed.

Lemma marks_for_once (self : t) (h : heap) (tests : list item_id)
    (i : item_id) :
  NoDup tests -> i ∈ tests ->
  marks_for self h tests i = map group_mark (_find_matching_groups self (h i)).
Proof.
  induction tests as [|test tests IH]; intros Hnd Hi.
  - by apply elem_of_nil in Hi.
  - apply NoDup_cons in Hnd as [Hfresh Hnd]. rewrite marks_for_cons.
    destruct (Nat.eqb_spec test i) as [->|Hne].
    + by rewrite marks_for_absent, app_nil_r.
    + apply elem_of_cons in Hi as [->|Hi]; [done|]. by apply IH.
Qed.

Lemma elem_of_marks_for (self : t) (h : heap) (tests : list item_id)
    (i : item_id) (m : Mark) :
  m ∈ marks_for self h tests i
  <-> i ∈ tests
      /\ exists g, g ∈ _find_matching_groups self (h i) /\ m = group_mark g.
Proof.
  induction tests as [|test tests IH].
  - split; [by intros ?%elem_of_nil|]. by intros [?%elem_of_nil _].
  - rewrite marks_for_cons, elem_of_app, IH, elem_of_cons.
    destruct (Nat.eqb_spec test i) as [->|Hne].
    + rewrite list_elem_of_fmap. split.
      * intros [(g & -> & Hg)|[Hi Hg]]; eauto.
      * intros [_ (g & Hg & ->)]. left. eauto.
    + split.
      * intros [?%elem_of_nil|[Hi Hg]]; [done|]. eauto.
      * intros [[->|Hi] Hg]; [done|]. eauto.
Qed.

(** The stage completes in a session that accepts the group names. *)
Lemma apply_completes (self : t) (h : heap) (tests : list item_id) :
  Forall (accepted_marker_name config) (map fst (group_mappings self)) ->
  exists h',
    apply config self h tests = Ok (tests, h')
    /\ forall i, h' i = with_markers (h i) (marks_for self h tests i).
Proof.
  intros Hvalid. unfold apply, run.
  destruct (step_loop config self h tests
              {| groups := empty_groups (map fst (group_mappings self));
                 unmatched := []; store := h |} Hvalid)
    as (st' & Hrun & _ & _ & _); [|apply same_params_refl|].
  { intros g Hg. cbn [groups]. rewrite lookup_empty_groups.
    rewrite decide_True by done. eauto. }
  rewrite Hrun. cbn [bind]. exists (store st'). split; [done|].
  intros i.
  apply (step_store self h tests
           {| groups := empty_groups (map fst (group_mappings self));
              unmatched := []; store := h |} st' (same_params_refl h) Hrun i).
Qed.

End Markers.

Lemma closest_marker_with_markers_found (it : Item) (ms : list Mark)
    (g : string) :
  group_mark g ∈ ms ->
  exists m, get_closest_marker g (with_markers it ms) = Some m
            /\ mark_name m = g.
Proof.
  intros Hin. unfold get_closest_marker.
  destruct (List.find _ _) as [m|] eqn:E.
  - apply find_some in E as [_ Hm]. apply String.eqb_eq in Hm. eauto.
  - pose proof (find_none _ _ E (group_mark g)) as Hnone.
    cbn [with_markers own_markers] in Hnone.
    rewrite String.eqb_refl in Hnone. discriminate Hnone.
    apply in_or_app. left. apply in_or_app. right.
    by apply list_elem_of_In.
Qed.

Lemma closest_marker_with_markers_other (it : Item) (ms : list Mark)
    (nm : string) :
  Forall (fun m => mark_name m <> nm) ms ->
  get_closest_marker nm (with_markers it ms) = get_closest_marker nm it.
Proof.
  intros Hms. unfold get_closest_marker.
  cbn [with_markers own_markers parent_markers].
  rewrite !find_app. rewrite (find_none_forall _ ms).
  - by destruct (List.find _ (own_markers it)).
  - eapply Forall_impl; [exact Hms|]. intros m Hm. cbn beta in *.
    by apply String.eqb_neq.
Qed.

(** X12: in a session that accepts the group names as marker names, and on
    distinct tests, the grouping stage of [conftest.py] returns its input and
    leaves every input test with one marker appended per group name found
    for it, in the order found; objects outside the input are untouched. *)
Theorem grouping_appends_group_markers (config : option MarkConfig)
    (self : Conftest.FixtureParameterGroupingStage.t) (h : heap)
    (tests : list item_id) :
  Forall (accepted_marker_name config)
    (map fst (Conftest.FixtureParameterGroupingStage.group_mappings self)) ->
  NoDup tests ->
  exists h',
    Conftest.FixtureParameterGroupingStage.apply config self h tests
    = Ok (tests, h')
    /\ (forall t, t ∈ tests ->
          h' t
          = with_markers (h t)
              (map group_mark
                 (Conftest.FixtureParameterGroupingStage._find_matching_groups
                    self (h t))))
    /\ (forall i, i ∉ tests -> h' i = h i).
Proof.
  intros Hvalid Hnd.
  destruct (apply_completes config self h tests Hvalid)
    as (h' & Happly & Hh').
  exists h'. split; [done|]. split.
  - intros t Ht. by rewrite Hh', marks_for_once.
  - intros i Hi. by rewrite Hh', marks_for_absent, with_markers_nil.
Qed.

Lemma grouping_appends_group_markers_witness :
  exists h',
    Conftest.FixtureParameterGroupingStage.apply default_session fast_slow
      heap_params [0%nat; 1%nat; 2%nat] = Ok ([0%nat; 1%nat; 2%nat], h')
    /\ (forall t, t ∈ [0%nat; 1%nat; 2%nat] ->
          h' t
          = with_markers (heap_params t)
              (map group_mark
                 (Conftest.FixtureParameterGroupingStage._find_matching_groups
                    fast_slow (heap_params t))))
    /\ (forall i, i ∉ [0%nat; 1%nat; 2%nat] -> h' i = heap_params i).
Proof.
  apply (grouping_appends_group_markers default_session fast_slow heap_params
           [0%nat; 1%nat; 2%nat]).
  - accept_names.
  - apply NoDup_ListNoDup. repeat constructor; simpl; intuition discriminate.
Defined.

(** X13: in a session that accepts the group names as marker names, after
    the grouping stage of [conftest.py] has run every input test carries,
    for each group found for it, a marker of that name that
    [get_closest_marker] finds. *)
Theorem group_marker_found_after_grouping (config : option MarkConfig)
    (self : Conftest.FixtureParameterGroupingStage.t) (h : heap)
    (tests : list item_id) :
  Forall (accepted_marker_name config)
    (map fst (Conftest.FixtureParameterGroupingStage.group_mappings self)) ->
  exists h',
    Conftest.FixtureParameterGroupingStage.apply config self h tests
    = Ok (tests, h')
    /\ forall t g,
         t ∈ tests ->
         g ∈ Conftest.FixtureParameterGroupingStage._find_matching_groups
               self (h t) ->
         exists m, get_closest_marker g (h' t) = Some m /\ mark_name m = g.
Proof.
  intros Hvalid.
  destruct (apply_completes config self h tests Hvalid)
    as (h' & Happly & Hh').
  exists h'. split; [done|]. intros t g Ht Hg. rewrite Hh'.
  apply closest_marker_with_markers_found, elem_of_marks_for. eauto.
Qed.

Lemma group_marker_found_after_grouping_witness :
  exists h',
    Conftest.FixtureParameterGroupingStage.apply default_session fast_slow
      heap_params [0%nat; 1%nat; 2%nat] = Ok ([0%nat; 1%nat; 2%nat], h')
    /\ forall t g,
         t ∈ [0%nat; 1%nat; 2%nat] ->
         g ∈ Conftest.FixtureParameterGroupingStage._find_matching_groups
               fast_slow (heap_params t) ->
         exists m, get_closest_marker g (h' t) = Some m /\ mark_name m = g.
Proof.
  apply (group_marker_found_after_grouping default_session fast_slow
           heap_params [0%nat; 1%nat; 2%nat]).
  accept_names.
Defined.

(** X14: in a session that accepts the group names as marker names, and
    unless a group is called run_days, the grouping stage of [conftest.py]
    does not change what the date filter decides: on the store it leaves,
    [DateFilterStage.apply] keeps the same tests as before. *)
Theorem grouping_keeps_date_filter (config : option MarkConfig)
    (self : Conftest.FixtureParameterGroupingStage.t) (h : heap)
    (tests : list item_id) :
  Forall (accepted_marker_name config)
    (map fst (Conftest.FixtureParameterGroupingStage.group_mappings self)) ->
  "run_days" ∉ map fst
                 (Conftest.FixtureParameterGroupingStage.group_mappings self) ->
  exists h',
    Conftest.FixtureParameterGroupingStage.apply config self h tests
    = Ok (tests, h')
    /\ forall now d l,
         DateFilterStage.apply now d h' l = DateFilterStage.apply now d h l.
Proof.
  intros Hvalid Hname.
  destruct (apply_completes config self h tests Hvalid)
    as (h' & Happly & Hh').
  exists h'. split; [done|]. intros now d l.
  rewrite !apply_eq_filter. apply List.filter_ext. intros t.
  unfold DateFilterStage._should_run_today. rewrite Hh'.
  rewrite closest_marker_with_markers_other; [done|].
  apply Forall_forall. intros m Hm.
  apply elem_of_marks_for in Hm as (_ & g & Hg & ->). cbn [group_mark mark_name].
  intros ->. apply Hname. by eapply find_matching_groups_keys.
Qed.

Lemma grouping_keeps_date_filter_witness :
  exists h',
    Conftest.FixtureParameterGroupingStage.apply default_session fast_slow
      heap_params [0%nat; 1%nat; 2%nat] = Ok ([0%nat; 1%nat; 2%nat], h')
    /\ forall now d l,
         DateFilterStage.apply now d h' l
         = DateFilterStage.apply now d heap_params l.
Proof.
  apply (grouping_keeps_date_filter default_session fast_slow heap_params
           [0%nat; 1%nat; 2%nat]).
  - accept_names.
  - intros H. apply list_elem_of_In in H. simpl in H. intuition discriminate.
Defined.



(** ** The keys of the groups *)

Lemma for_each_preserves {S A : Type} (P : S -> Prop)
    (body : S -> A -> result S) (l : list A) (s s' : S) :
  (forall s x s', P s -> body s x = Ok s' -> P s') ->
  P s -> for_each body s l = Ok s' -> P s'.
Proof.
  intros Hbody. revert s. induction l as [|x l IH]; intros s Hs Hrun.
  - by injection Hrun as <-.
  - cbn [for_each] in Hrun. destruct (body s x) as [s1|] eqn:E; [|done].
    cbn [bind] in Hrun. eapply IH; [|exact Hrun]. by eapply Hbody.
Qed.

Lemma groups_append_dom (groups groups' : gmap string (list item_id))
    (group_name : string) (test : item_id) :
  groups_append groups group_name test = Ok groups' ->
  dom groups' = dom groups.
Proof.
  unfold groups_append.
  destruct (groups !! group_name) as [l|] eqn:E; [|done].
  intros [= <-]. apply dom_insert_lookup_L. eauto.
Qed.

Lemma dom_empty_groups (keys : list string) :
  dom (empty_groups keys) = list_to_set keys.
Proof.
  apply set_eq. intros k.
  rewrite elem_of_dom, lookup_empty_groups, elem_of_list_to_set.
  destruct (decide (k ∈ keys)) as [Hin|Hout].
  - split; [done|eauto].
  - split; [by intros [? ?]|done].
Qed.

Section Keys.

Import Conftest.FixtureParameterGroupingStage.

Variable config : option MarkConfig.

Lemma assign_dom (test : item_id) (st st' : locals) (g : string) :
  assign config test st g = Ok st' -> dom (groups st') = dom (groups st).
Proof.
  unfold assign.
  destruct (groups_append (groups st) g test) as [groups'|] eqn:E; [|done].
  cbn [bind]. destruct (mark_getattr config g); [|done]. cbn [bind].
  intros [= <-]. cbn [groups]. by eapply groups_append_dom.
Qed.

Lemma step_dom (self : t) (st st' : locals) (test : item_id) :
  step config self st test = Ok st' -> dom (groups st') = dom (groups st).
Proof.
  unfold step.
  destruct (_find_matching_groups self (store st test)) as [|g gs].
  - by intros [= <-].
  - apply (for_each_preserves
             (fun s => dom (groups s) = dom (groups st))); [|done].
    intros s x s' Hs Hassign. apply assign_dom in Hassign. congruence.
Qed.

End Keys.

(** X16: whenever the loop of the grouping stage of [conftest.py]
    completes, the groups it has built have exactly the configured group
    names as keys, matched or not, so [get_group] is empty for any other
    name. *)
Theorem built_groups_have_configured_names (config : option MarkConfig)
    (self : Conftest.FixtureParameterGroupingStage.t) (h : heap)
    (tests : list item_id) (r : FixtureParameterGroups.t) :
  Conftest.FixtureParameterGroupingStage.grouping_result config self h tests
  = Ok r ->
  dom (FixtureParameterGroups.groups r)
  = list_to_set
      (map fst (Conftest.FixtureParameterGroupingStage.group_mappings self))
  /\ forall k,
       k ∉ map fst (Conftest.FixtureParameterGroupingStage.group_mappings self) ->
       FixtureParameterGroups.get_group r k = [].
Proof.
  unfold Conftest.FixtureParameterGroupingStage.grouping_result,
         Conftest.FixtureParameterGroupingStage.run.
  destruct (for_each _ _ tests) as [st|] eqn:Hrun; [|done].
  cbn [bind]. intros [= <-]. cbn [FixtureParameterGroups.groups].
  assert (dom (Conftest.FixtureParameterGroupingStage.groups st)
          = list_to_set
              (map fst
                 (Conftest.FixtureParameterGroupingStage.group_mappings self)))
    as Hdom.
  { rewrite <- dom_empty_groups.
    eapply (for_each_preserves
              (fun s => dom (Conftest.FixtureParameterGroupingStage.groups s)
                        = dom (empty_groups
                                 (map fst
                                    (Conftest.FixtureParameterGroupingStage.group_mappings
                                       self)))));
      [| |exact Hrun]; [|reflexivity].
    intros s x s' Hs Hstep. apply (step_dom config) in Hstep. congruence. }
  split; [done|]. intros k Hk. unfold FixtureParameterGroups.get_group.
  cbn [FixtureParameterGroups.groups].
  assert (Conftest.FixtureParameterGroupingStage.groups st !! k = None) as ->;
    [|done].
  apply not_elem_of_dom. rewrite Hdom. by rewrite elem_of_list_to_set.
Qed.

Lemma built_groups_have_configured_names_witness :
  dom (FixtureParameterGroups.groups sample_result)
  = list_to_set
      (map fst (Conftest.FixtureParameterGroupingStage.group_mappings fast_slow))
  /\ forall k,
       k ∉ map fst
             (Conftest.FixtureParameterGroupingStage.group_mappings fast_slow) ->
       FixtureParameterGroups.get_group sample_result k = [].
Proof.
  apply (built_groups_have_configured_names default_session fast_slow
           heap_params [0%nat; 1%nat; 2%nat] sample_result).
  vm_compute. reflexivity.
Defined.

(** ** The grouping stage of [Pipeline.py] *)

Section Reverse.

Import PipelinePy.FixtureParameterGroupingStage.

Lemma lookup_foldl_insert_value (k : string) (ids : list string)
    (acc : gmap string string) (v : string) :
  foldl (fun acc value => <[value := k]> acc) acc ids !! v
  = if decide (v ∈ ids) then Some k else acc !! v.
Proof.
  revert acc. induction ids as [|a ids IH]; intros acc.
  - cbn [foldl]. case_decide as Hin; [|done]. by apply elem_of_nil in Hin.
  - cbn [foldl]. rewrite IH.
    destruct (decide (v ∈ ids)) as [Hin|Hout],
             (decide (v ∈ a :: ids)) as [Hin'|Hout']; try done.
    + exfalso. apply Hout'. by right.
    + apply elem_of_cons in Hin' as [->|?]; [|done].
      apply lookup_insert_eq.
    + rewrite lookup_insert_ne; [done|]. intros ->. apply Hout'. by left.
Qed.

Lemma lookup_reverse_from_absent (m : list (string * list string))
    (acc : gmap string string) (v : string) :
  (forall k ids, (k, ids) ∈ m -> v ∉ ids) ->
  foldl (fun acc (kv : string * list string) =>
           foldl (fun acc value => <[value := fst kv]> acc) acc (snd kv))
        acc m !! v
  = acc !! v.
Proof.
  revert acc. induction m as [|[k ids] m IH]; intros acc Habs; [done|].
  cbn [foldl fst snd]. rewrite IH.
  - rewrite lookup_foldl_insert_value. rewrite decide_False; [done|].
    apply (Habs k ids). by left.
  - intros k' ids' Hin. apply (Habs k' ids'). by right.
Qed.

Lemma lookup_reverse_from_some (m : list (string * list string))
    (acc : gmap string string) (v k : string) :
  foldl (fun acc (kv : string * list string) =>
           foldl (fun acc value => <[value := fst kv]> acc) acc (snd kv))
        acc m !! v
  = Some k ->
  acc !! v = Some k \/ exists ids, (k, ids) ∈ m /\ v ∈ ids.
Proof.
  revert acc. induction m as [|[k' ids'] m IH]; intros acc Hlook.
  - by left.
  - cbn [foldl fst snd] in Hlook. apply IH in Hlook as [Hacc|(ids & Hin & Hv)].
    + rewrite lookup_foldl_insert_value in Hacc.
      destruct (decide (v ∈ ids')) as [Hv|_].
      * injection Hacc as <-. right. exists ids'. split; [by left|done].
      * by left.
    + right. exists ids. split; [by right|done].
Qed.

Lemma value_to_group_configured (fx : string) (m : list (string * list string))
    (v k : string) :
  _value_to_group (init fx m) !! v = Some k ->
  exists ids, (k, ids) ∈ m /\ v ∈ ids.
Proof.
  cbn [init _value_to_group]. unfold reverse_mapping. intros Hlook.
  apply lookup_reverse_from_some in Hlook as [Hacc|?]; [|done].
  by rewrite lookup_empty in Hacc.
Qed.

End Reverse.

(** X17: in [Pipeline.py] a value listed under several groups belongs to the
    last of them: the reverse mapping built by the constructor sends a value
    to the last group, in the order of the mapping, that lists it. *)
Theorem value_belongs_to_last_group (fx : string)
    (m1 m2 : list (string * list string)) (k : string) (ids : list string)
    (v : string) :
  v ∈ ids ->
  (forall k' ids', (k', ids') ∈ m2 -> v ∉ ids') ->
  PipelinePy.FixtureParameterGroupingStage._value_to_group
    (PipelinePy.FixtureParameterGroupingStage.init fx (m1 ++ (k, ids) :: m2))
    !! v
  = Some k.
Proof.
  intros Hv Hlater.
  cbn [PipelinePy.FixtureParameterGroupingStage.init
       PipelinePy.FixtureParameterGroupingStage._value_to_group].
  unfold PipelinePy.FixtureParameterGroupingStage.reverse_mapping.
  rewrite foldl_app. cbn [foldl fst snd].
  rewrite (lookup_reverse_from_absent m2 _ v Hlater).
  rewrite lookup_foldl_insert_value. by rewrite decide_True.
Qed.

Lemma value_belongs_to_last_group_witness :
  PipelinePy.FixtureParameterGroupingStage._value_to_group
    (PipelinePy.FixtureParameterGroupingStage.init "sleep_time"
       ([ ("fast", ["quick"; "both"]) ]
        ++ ("slow", ["slow"; "both"]) :: [ ("other", ["x"]) ]))
    !! "both"
  = Some "slow".
Proof.
  apply (value_belongs_to_last_group "sleep_time"
           [ ("fast", ["quick"; "both"]) ] [ ("other", ["x"]) ]
           "slow" ["slow"; "both"] "both").
  - apply list_elem_of_In. simpl. tauto.
  - intros k' ids' Hin Hv.
    apply list_elem_of_In in Hin. simpl in Hin.
    destruct Hin as [Heq|[]]. injection Heq as <- <-.
    apply list_elem_of_In in Hv. simpl in Hv. intuition discriminate.
Defined.

Section PyGrouping.

Import PipelinePy.FixtureParameterGroupingStage.

Lemma dict_params_value (self : t) (it : Item) :
  dict_params it -> exists v, _get_fixture_parameter_value self it = Ok v.
Proof.
  unfold dict_params, _get_fixture_parameter_value.
  destruct (callspec it) as [cs|]; [|eauto].
  destruct (params cs) as [[d|l|]|]; try done; [|eauto].
  intros _. destruct (dict_get d (fixture_name self)) as [[]|]; eauto.
Qed.

Lemma py_step (self : t) (h : heap) (st : FixtureParameterGroups.t)
    (test : item_id) :
  dict_params (h test) ->
  (forall v k, _value_to_group self !! v = Some k ->
               is_Some (FixtureParameterGroups.groups st !! k)) ->
  exists st',
    step self h st test = Ok st'
    /\ FixtureParameterGroups.unmatched st'
       = FixtureParameterGroups.unmatched st
         ++ (if bool_decide (filed_under self (h test) = None)
             then [test] else [])
    /\ forall k,
         FixtureParameterGroups.groups st' !! k
         = (fun l => l ++ if bool_decide (filed_under self (h test) = Some k)
                          then [test] else [])
             <$> (FixtureParameterGroups.groups st !! k).
Proof.
  intros Hdict Hdom. unfold step, filed_under.
  destruct (dict_params_value self (h test) Hdict) as [v ->]. cbn [bind].
  assert (forall k,
            FixtureParameterGroups.groups st !! k
            = (fun l => l ++ []) <$> (FixtureParameterGroups.groups st !! k))
    as Hid.
  { intros k. destruct (FixtureParameterGroups.groups st !! k); [|done].
    cbn. by rewrite app_nil_r. }
  destruct v as [pv|].
  2:{ eexists. split; [done|]. split; [done|]. exact Hid. }
  destruct (String.eqb pv "").
  { eexists. split; [done|]. split; [done|]. exact Hid. }
  destruct (_value_to_group self !! pv) as [g|] eqn:Hg.
  2:{ eexists. split; [done|]. split; [done|]. exact Hid. }
  destruct (Hdom pv g Hg) as [l Hl].
  unfold groups_append. rewrite Hl. cbn [bind].
  eexists. split; [done|]. cbn [FixtureParameterGroups.unmatched
                                 FixtureParameterGroups.groups].
  split; [by rewrite app_nil_r|]. intros k.
  destruct (decide (g = k)) as [->|Hne].
  - rewrite lookup_insert_eq, Hl. by rewrite bool_decide_true.
  - rewrite lookup_insert_ne by done.
    rewrite bool_decide_false by congruence. apply Hid.
Qed.

Lemma py_loop (self : t) (h : heap) (tests : list item_id)
    (st : FixtureParameterGroups.t) :
  Forall (fun test => dict_params (h test)) tests ->
  (forall v k, _value_to_group self !! v = Some k ->
               is_Some (FixtureParameterGroups.groups st !! k)) ->
  exists st',
    for_each (step self h) st tests = Ok st'
    /\ FixtureParameterGroups.unmatched st'
       = FixtureParameterGroups.unmatched st
         ++ List.filter
              (fun test => bool_decide (filed_under self (h test) = None))
              tests
    /\ forall k,
         FixtureParameterGroups.groups st' !! k
         = (fun l =>
              l ++ List.filter
                     (fun test =>
                        bool_decide (filed_under self (h test) = Some k))
                     tests)
             <$> (FixtureParameterGroups.groups st !! k).
Proof.
  intros Hdict. revert st.
  induction Hdict as [|test tests Htest _ IH]; intros st Hdom.
  - exists st. split; [done|]. cbn [List.filter].
    split; [by rewrite app_nil_r|]. intros k.
    destruct (FixtureParameterGroups.groups st !! k); [|done].
    cbn. by rewrite app_nil_r.
  - destruct (py_step self h st test Htest Hdom) as (st1 & Hstep & Hun1 & Hg1).
    destruct (IH st1) as (st' & Hrun & Hun & Hg).
    { intros v k Hv. rewrite Hg1. destruct (Hdom v k Hv) as [l ->].
      cbn. eauto. }
    exists st'. cbn [for_each]. rewrite Hstep. cbn [bind].
    split; [done|]. split.
    + rewrite Hun, Hun1. cbn [List.filter].
      destruct (bool_decide (filed_under self (h test) = None));
        by rewrite <- app_assoc.
    + intros k. rewrite Hg, Hg1. cbn [List.filter].
      destruct (FixtureParameterGroups.groups st !! k); [|done]. cbn.
      destruct (bool_decide (filed_under self (h test) = Some k));
        by rewrite <- app_assoc.
Qed.

(** What the stage built by the constructor returns. *)
Lemma py_apply_built (fx : string) (m : list (string * list string))
    (h : heap) (tests : list item_id) :
  Forall (fun test => dict_params (h test)) tests ->
  exists r,
    apply (init fx m) h tests = Ok r
    /\ FixtureParameterGroups.unmatched r
       = List.filter
           (fun test => bool_decide (filed_under (init fx m) (h test) = None))
           tests
    /\ (forall k, k ∈ map fst m ->
          FixtureParameterGroups.get_group r k
          = List.filter
              (fun test =>
                 bool_decide (filed_under (init fx m) (h test) = Some k))
              tests)
    /\ (forall k, k ∉ map fst m -> FixtureParameterGroups.get_group r k = []).
Proof.
  intros Hdict. unfold apply.
  destruct (py_loop (init fx m) h tests
              {| FixtureParameterGroups.groups :=
                   empty_groups (map fst (group_mappings (init fx m)));
                 FixtureParameterGroups.unmatched := [] |} Hdict)
    as (r & Hrun & Hun & Hg).
  { intros v k Hv. cbn [FixtureParameterGroups.groups init group_mappings].
    apply value_to_group_configured in Hv as (ids & Hin & _).
    rewrite lookup_empty_groups, decide_True; [eauto|].
    apply list_elem_of_In, in_map_iff. exists (k, ids).
    split; [done|by apply list_elem_of_In]. }
  exists r. split; [done|]. split; [done|].
  unfold FixtureParameterGroups.get_group.
  split; intros k Hk; rewrite Hg;
    cbn [FixtureParameterGroups.groups init group_mappings];
    rewrite lookup_empty_groups.
  - by rewrite decide_True.
  - by rewrite decide_False.
Qed.

End PyGrouping.



(** ** The hook of [Pipeline.py] *)

Lemma sublist_get_group_built (fx : string) (m : list (string * list string))
    (h : heap) (tests : list item_id) (r : FixtureParameterGroups.t)
    (k : string) :
  (forall k, k ∈ map fst m ->
     FixtureParameterGroups.get_group r k
     = List.filter
         (fun test =>
            bool_decide
              (filed_under (PipelinePy.FixtureParameterGroupingStage.init fx m)
                           (h test) = Some k))
         tests) ->
  (forall k, k ∉ map fst m -> FixtureParameterGroups.get_group r k = []) ->
  FixtureParameterGroups.get_group r k `sublist_of` tests.
Proof.
  intros Hin Hout. destruct (decide (k ∈ map fst m)) as [Hk|Hk].
  - rewrite (Hin k Hk). apply filter_sublist.
  - rewrite (Hout k Hk). apply sublist_nil_l.
Qed.

(** X19: on tests whose parameters are a dict, the hook of [Pipeline.py]
    never raises and only removes tests: what it leaves in [items] is a
    sub-sequence of the collected items, and without the two options it is
    the items the date filter keeps today. *)
Theorem pipeline_py_hook_only_removes (now : datetime)
    (config : PipelinePyHook.Config) (h : heap) (items : list item_id) :
  Forall (fun test => dict_params (h test)) items ->
  exists l,
    PipelinePyHook.pytest_collection_modifyitems now config h items = Ok l
    /\ l `sublist_of` items
    /\ (PipelinePyHook.run_fast_only config = false ->
        PipelinePyHook.group config = None ->
        l = DateFilterStage.apply now
              {| DateFilterStage._current_time := None |} h items).
Proof.
  intros Hdict. unfold PipelinePyHook.pytest_collection_modifyitems.
  cbn [PipelinePy.TestFilterPipeline.init PipelinePy.TestFilterPipeline.add_stage
       PipelinePy.TestFilterPipeline.apply PipelinePy.TestFilterPipeline._stages
       default app for_each bind PipelinePy.stage_apply].
  set (kept := DateFilterStage.apply now
                 {| DateFilterStage._current_time := None |} h items).
  assert (kept `sublist_of` items) as Hkept.
  { unfold kept. rewrite apply_eq_filter. apply filter_sublist. }
  assert (Forall (fun test => dict_params (h test)) kept) as Hdict'.
  { apply Forall_forall. intros test Htest.
    apply elem_of_apply in Htest as [Htest _].
    rewrite Forall_forall in Hdict. by apply Hdict. }
  destruct (py_apply_built "test_mode"
              [ ("fast", ["mode_a"; "quick"]);
                ("slow", ["mode_b"; "detailed"]);
                ("experimental", ["mode_c"; "beta"]) ] h kept Hdict')
    as (r & Happly & _ & Hin & Hout).
  unfold PipelinePyHook.hook_stage. rewrite Happly. cbn [bind].
  pose proof (fun k => sublist_get_group_built _ _ _ _ r k Hin Hout) as Hsub.
  eexists. split; [done|]. split.
  - destruct (PipelinePyHook.group config) as [target|].
    + destruct (_ && _)%bool.
      * etrans; [apply Hsub|done].
      * destruct (PipelinePyHook.run_fast_only config); [|done].
        etrans; [apply Hsub|done].
    + destruct (PipelinePyHook.run_fast_only config); [|done].
      etrans; [apply Hsub|done].
  - by intros -> ->.
Qed.

Lemma pipeline_py_hook_only_removes_witness :
  exists l,
    PipelinePyHook.pytest_collection_modifyitems epoch
      {| PipelinePyHook.run_fast_only := true;
         PipelinePyHook.group := Some "slow" |}
      heap_exact [0%nat; 1%nat] = Ok l
    /\ l `sublist_of` [0%nat; 1%nat]
    /\ (PipelinePyHook.run_fast_only
          {| PipelinePyHook.run_fast_only := true;
             PipelinePyHook.group := Some "slow" |} = false ->
        PipelinePyHook.group
          {| PipelinePyHook.run_fast_only := true;
             PipelinePyHook.group := Some "slow" |} = None ->
        l = DateFilterStage.apply epoch
              {| DateFilterStage._current_time := None |} heap_exact
              [0%nat; 1%nat]).
Proof.
  apply (pipeline_py_hook_only_removes epoch
           {| PipelinePyHook.run_fast_only := true;
              PipelinePyHook.group := Some "slow" |}
           heap_exact [0%nat; 1%nat]).
  repeat constructor.
Defined.
